(** * b2b-crypto-wallet: the balance-consistency engine

    A shallow embedding of the wallet/transaction models
    ([api/models.py]), the balance signal receivers ([api/signals.py]),
    the transaction serializer ([api/serializers.py]) and the view sets
    ([api/views.py]), followed by the properties of the engine.

    Modelling conventions.
    - The two tables are finite maps from primary key to row.
    - [DecimalField(max_digits=30, decimal_places=18)] columns hold exact
      fixed-point numbers; a stored amount or balance is the integer
      number of 10^-18 units.  The decimal a client submits is kept as a
      sign/coefficient/exponent triple until the serializer accepted it.
      Sums and differences taken in Python are rounded to the 28
      significant digits of the default decimal context; those the
      database takes ([F('balance') + amount]) are exact.
    - Python code that queries or writes the store is a computation in
      the monad [DB]: a function from the store to an outcome (a value
      or a raised exception) and the store reached.  An exception keeps
      the writes made so far; [atomic] restores the store of block entry.
    - Framework behaviour the source relies on (Model.save, Model.delete
      with CASCADE, full_clean, the serializer's field loop, routing by
      [http_method_names]) is written out under the framework's names.
      Format validators the framework derives from field options
      (max_length, blank, max_digits), the [timestamp] column, store
      faults and concurrent sessions are outside the embedding. *)

From stdpp Require Import base option gmap strings list fin_maps.
From Stdlib Require Import ZArith Lia.

Local Open Scope Z_scope.

(** ** Decimals *)

Module Decimal.

(** A finite [decimal.Decimal]: [as_tuple()] without the special
    values. *)
Record t := mk { sign : bool; coefficient : N; exponent : Z }.

Definition signed_coefficient (d : t) : Z :=
  if sign d then - Z.of_N (coefficient d) else Z.of_N (coefficient d).

(** [decimal_places=18] of both [Wallet.balance] and
    [Transaction.amount]. *)
Definition decimal_places : Z := 18.

(** Number of digits after the decimal point. *)
Definition fractional_digits (d : t) : Z := Z.max 0 (- exponent d).

(** The column value of a decimal whose exponent is at least -18. *)
Definition to_units (d : t) : Z :=
  signed_coefficient d * 10 ^ (exponent d + decimal_places).

(** The decimal read back from a column. *)
Definition of_units (u : Z) : t :=
  {| sign := u <? 0; coefficient := Z.to_N (Z.abs u);
     exponent := - decimal_places |}.

(** Python's [==] on decimals: equality of the numbers denoted. *)
Definition numerically_equal (a b : t) : Prop :=
  let m := Z.min (exponent a) (exponent b) in
  signed_coefficient a * 10 ^ (exponent a - m)
  = signed_coefficient b * 10 ^ (exponent b - m).

(** The special values of [decimal.Decimal]: their
    [as_tuple().exponent] is a letter, not a number. *)
Inductive special := Infinity | NaN | sNaN.

(** *** Arithmetic in Python

    [a + b] and [a - b] on [Decimal] objects are computed in the
    default context: the exact result is rounded to [prec] significant
    digits, ROUND_HALF_EVEN.  The operands below are column values,
    numbers of 10^-18 units; so are the results, since rounding only
    clears low digits. *)

(** [getcontext().prec] *)
Definition prec : Z := 28.

(** How many digits the coefficient [n] has beyond [prec]. *)
Fixpoint excess_digits (fuel : nat) (n : Z) : Z :=
  match fuel with
  | O => 0
  | S fuel => if n <? 10 ^ prec then 0 else 1 + excess_digits fuel (n / 10)
  end.

(** ROUND_HALF_EVEN of the coefficient [n] to [prec] digits. *)
Definition round_coefficient (n : Z) : Z :=
  let k := excess_digits (Z.to_nat (Z.log2 n)) n in
  let q := n / 10 ^ k in
  let r := n mod 10 ^ k in
  if 2 * r <? 10 ^ k then q * 10 ^ k
  else if (2 * r =? 10 ^ k) && Z.even q then q * 10 ^ k
  else (q + 1) * 10 ^ k.

Definition round (x : Z) : Z := Z.sgn x * round_coefficient (Z.abs x).

(** [a + b] *)
Definition add (a b : Z) : Z := round (a + b).

(** [a - b] *)
Definition sub (a b : Z) : Z := round (a - b).

End Decimal.

(** ** Rows, instances and the store *)

Record Wallet := mkWallet { label : string; balance : Z }.

Record Transaction := mkTransaction { wallet : Z; txid : string; amount : Z }.

(** A model instance in memory: [pk] is [None] until the row is saved. *)
Record Instance (R : Type) := mkInstance { pk : option Z; row : R }.
Arguments mkInstance {R} pk row.
Arguments pk {R} i.
Arguments row {R} i.

Record Store := mkStore {
  wallets : gmap Z Wallet;
  transactions : gmap Z Transaction
}.

Definition set_balance (f : Z → Z) (w : Wallet) : Wallet :=
  {| label := label w; balance := f (balance w) |}.

(** ** Exceptions *)

Inductive Reason :=
| WalletNegative           (* 'Wallet balance cannot be negative.' *)
| WalletMissing            (* 'The specified wallet does not exist.' *)
| UpdateTargetMissing      (* 'Transaction for update not found.' *)
| NegativeBalance          (* 'Transaction would lead to a negative wallet balance.' *)
| NegativeBalanceOnDelete  (* 'Deleting this transaction would lead to a negative wallet balance.' *)
| InvalidAmountFormat      (* 'Invalid amount format.' *)
| PrecisionExceeded        (* 'Amount cannot have more than 18 decimal places.' *)
| DuplicateTxid            (* 'Transaction with this txid already exists.' *)
| RelatedDoesNotExist      (* related field: the referenced object does not exist *)
| UniqueViolation.         (* unique=True: a row with this value already exists *)

Definition message (r : Reason) : string :=
  match r with
  | WalletNegative => "Wallet balance cannot be negative."
  | WalletMissing => "The specified wallet does not exist."
  | UpdateTargetMissing => "Transaction for update not found."
  | NegativeBalance => "Transaction would lead to a negative wallet balance."
  | NegativeBalanceOnDelete =>
      "Deleting this transaction would lead to a negative wallet balance."
  | InvalidAmountFormat => "Invalid amount format."
  | PrecisionExceeded => "Amount cannot have more than 18 decimal places."
  | DuplicateTxid => "Transaction with this txid already exists."
  | RelatedDoesNotExist => "Invalid pk - object does not exist."
  | UniqueViolation => "An object with this value already exists."
  end.

(** The payload of a validation error: a dict from field name to reason,
    or a bare message. *)
Definition ErrorDict : Type := list (string * Reason).

Inductive ErrorDetail :=
| MessageDict (d : ErrorDict)
| Message (r : Reason).

Inductive Exception :=
| DjangoValidationError (detail : ErrorDetail)      (* django.core.exceptions.ValidationError *)
| SerializerValidationError (detail : ErrorDetail)  (* rest_framework's, answered with 400 *)
| WalletDoesNotExist
| TransactionDoesNotExist
| Http404
| MethodNotAllowed
| AttributeError
| ValueError
| TypeError.

(** [NON_FIELD_ERRORS] of django.core.exceptions. *)
Definition NON_FIELD_ERRORS : string := "__all__".

(** [ValidationError.update_error_dict] on an empty dict. *)
Definition error_dict (d : ErrorDetail) : ErrorDict :=
  match d with
  | MessageDict d => d
  | Message r => [(NON_FIELD_ERRORS, r)]
  end.

(** [e.message_dict]: defined only for the dict form. *)
Definition message_dict (d : ErrorDetail) : option ErrorDict :=
  match d with
  | MessageDict d => Some d
  | Message _ => None
  end.

(** ** The monad of store computations *)

Inductive Outcome (A : Type) :=
| Ok (a : A)
| Raise (e : Exception).
Arguments Ok {A} a.
Arguments Raise {A} e.

Definition DB (A : Type) : Type := Store → Outcome A * Store.

#[export] Instance DB_ret : MRet DB := λ A a s, (Ok a, s).

#[export] Instance DB_bind : MBind DB := λ A B f m s,
  match m s with
  | (Ok a, s') => f a s'
  | (Raise e, s') => (Raise e, s')
  end.

Definition raise {A} (e : Exception) : DB A := λ s, (Raise e, s).

Definition lift {A} (o : Outcome A) : DB A := λ s, (o, s).

Definition gets {A} (f : Store → A) : DB A := λ s, (Ok (f s), s).

Definition modify (f : Store → Store) : DB unit := λ s, (Ok tt, f s).

(** [try: m except ...: h]; [h] answers [None] for an exception the
    clause does not name. *)
Definition try_except {A} (m : DB A) (h : Exception → option (DB A)) : DB A :=
  λ s, match m s with
       | (Ok a, s') => (Ok a, s')
       | (Raise e, s') =>
           match h e with
           | Some k => k s'
           | None => (Raise e, s')
           end
       end.

(** [with db_transaction.atomic():] an exception leaving the block rolls
    the store back to its state at entry. *)
Definition atomic {A} (m : DB A) : DB A :=
  λ s, match m s with
       | (Ok a, s') => (Ok a, s')
       | (Raise e, _) => (Raise e, s)
       end.

(** ** Queries and writes on the tables *)

(** The key a new row receives: above every key in use. *)
Definition next_pk {R} (m : gmap Z R) : Z :=
  1 + map_fold (λ k _ acc, Z.max k acc) 0 m.

(** [Wallet.objects.select_for_update().get(pk=k)] *)
Definition Wallet_objects_get (k : Z) : DB Wallet :=
  λ s, match wallets s !! k with
       | Some w => (Ok w, s)
       | None => (Raise WalletDoesNotExist, s)
       end.

(** [Transaction.objects.get(pk=k)] *)
Definition Transaction_objects_get (k : Z) : DB Transaction :=
  λ s, match transactions s !! k with
       | Some t => (Ok t, s)
       | None => (Raise TransactionDoesNotExist, s)
       end.

(** Some row other than [exclude] carries the txid [v]. *)
Definition txid_taken (v : string) (exclude : option Z)
    (txs : gmap Z Transaction) : bool :=
  bool_decide (map_Exists (λ k t, txid t = v ∧ Some k ≠ exclude) txs).

(** Some row other than [exclude] carries the label [v]. *)
Definition label_taken (v : string) (exclude : option Z)
    (ws : gmap Z Wallet) : bool :=
  bool_decide (map_Exists (λ k w, label w = v ∧ Some k ≠ exclude) ws).

(** [Transaction.objects.filter(txid=v).exists()] *)
Definition Transaction_objects_filter_txid_exists (v : string) : DB bool :=
  gets (λ s, txid_taken v None (transactions s)).

Definition put_transaction (k : Z) (t : Transaction) : DB unit :=
  modify (λ s, {| wallets := wallets s;
                  transactions := <[k := t]> (transactions s) |}).

Definition put_wallet (k : Z) (w : Wallet) : DB unit :=
  modify (λ s, {| wallets := <[k := w]> (wallets s);
                  transactions := transactions s |}).

(** [Wallet.objects.select_for_update().filter(pk=k).update(balance=f(F('balance')))]:
    when no row has the key nothing is written. *)
Definition Wallet_objects_filter_update (k : Z) (f : Z → Z) : DB unit :=
  modify (λ s, {| wallets := alter (set_balance f) k (wallets s);
                  transactions := transactions s |}).

Definition remove_transaction (k : Z) : DB unit :=
  modify (λ s, {| wallets := wallets s;
                  transactions := delete k (transactions s) |}).

(** ** api/signals.py *)

(** Receiver of [post_save] for [Transaction]. *)
Definition update_wallet_balance_on_transaction_save
    (instance : Instance Transaction) (created : bool) : DB unit :=
  if negb created then mret tt
  else atomic (Wallet_objects_filter_update (wallet (row instance))
                 (λ b, b + amount (row instance))).

(** Receiver of [post_delete] for [Transaction]. *)
Definition update_wallet_balance_on_transaction_delete
    (instance : Instance Transaction) : DB unit :=
  atomic (Wallet_objects_filter_update (wallet (row instance))
            (λ b, b - amount (row instance))).

(** ** django.db.models.Model, as inherited by the two models *)

(** [Model.save] on a [Transaction]: UPDATE the row of the instance's
    key when there is one, INSERT otherwise (under a new key when the
    instance has none); then send [post_save]. *)
Definition Model_save (self : Instance Transaction) : DB (Instance Transaction) :=
  txs ← gets transactions;
  let '(k, created) :=
    match pk self with
    | Some k => (k, bool_decide (txs !! k = None))
    | None => (next_pk txs, true)
    end in
  put_transaction k (row self);;
  let saved := mkInstance (Some k) (row self) in
  update_wallet_balance_on_transaction_save saved created;;
  mret saved.

(** [Model.delete] on a [Transaction]: DELETE the row, then send
    [post_delete]. *)
Definition Model_delete (self : Instance Transaction) : DB unit :=
  match pk self with
  | None => raise ValueError
  | Some k =>
      remove_transaction k;;
      update_wallet_balance_on_transaction_delete self
  end.

(** [validate_unique] for the one [unique=True] column of
    [Transaction]: no other row has this txid. *)
Definition Transaction_validate_unique (self : Instance Transaction) : DB unit :=
  txs ← gets transactions;
  if txid_taken (txid (row self)) (pk self) txs
  then raise (DjangoValidationError (MessageDict [("txid", UniqueViolation)]))
  else mret tt.

(** One stage of [full_clean]: run it and keep its validation errors. *)
Definition collect_errors (stage : DB unit) : DB ErrorDict :=
  try_except (stage;; mret [])
    (λ e, match e with
          | DjangoValidationError d => Some (mret (error_dict d))
          | _ => None
          end).

(** ** api/models.py *)

(** [Wallet.clean] *)
Definition Wallet_clean (self : Instance Wallet) : DB unit :=
  if balance (row self) <? 0
  then raise (DjangoValidationError (MessageDict [("balance", WalletNegative)]))
  else mret tt.

(** [not self.pk] *)
Definition not_pk (p : option Z) : bool :=
  match p with
  | None => true
  | Some k => k =? 0
  end.

(** [Transaction.clean] *)
Definition Transaction_clean (self : Instance Transaction) : DB unit :=
  wallet_instance ←
    try_except (Wallet_objects_get (wallet (row self)))
      (λ e, match e with
            | WalletDoesNotExist =>
                Some (raise (DjangoValidationError (MessageDict [("wallet", WalletMissing)])))
            | _ => None
            end);
  prospective_balance ←
    (if not_pk (pk self)
     then mret (Decimal.add (balance wallet_instance) (amount (row self)))
     else
       try_except
         (old_transaction ← Transaction_objects_get (default 0 (pk self));
          let amount_difference :=
            Decimal.sub (amount (row self)) (amount old_transaction) in
          mret (Decimal.add (balance wallet_instance) amount_difference))
         (λ e, match e with
               | TransactionDoesNotExist =>
                   Some (raise (DjangoValidationError (Message UpdateTargetMissing)))
               | _ => None
               end));
  if prospective_balance <? 0
  then raise (DjangoValidationError (MessageDict [("amount", NegativeBalance)]))
  else mret tt.

(** [Model.full_clean] on a [Transaction]: [clean], then the unique
    check; the errors of both stages are raised together. *)
Definition Model_full_clean (self : Instance Transaction) : DB unit :=
  errors_clean ← collect_errors (Transaction_clean self);
  errors_unique ← collect_errors (Transaction_validate_unique self);
  match errors_clean ++ errors_unique with
  | [] => mret tt
  | errors => raise (DjangoValidationError (MessageDict errors))
  end.

(** [Transaction.save] *)
Definition Transaction_save (self : Instance Transaction) : DB (Instance Transaction) :=
  Model_full_clean self;;
  Model_save self.

(** [Transaction.delete] *)
Definition Transaction_delete (self : Instance Transaction) : DB unit :=
  atomic (
    wallet_instance ← Wallet_objects_get (wallet (row self));
    let prospective_balance :=
      Decimal.sub (balance wallet_instance) (amount (row self)) in
    if prospective_balance <? 0
    then raise (DjangoValidationError
                  (MessageDict [("non_field_errors", NegativeBalanceOnDelete)]))
    else Model_delete self).

(** [Model.save] on a [Wallet] (the model does not override it). *)
Definition Wallet_save (self : Instance Wallet) : DB (Instance Wallet) :=
  ws ← gets wallets;
  let k := default (next_pk ws) (pk self) in
  put_wallet k (row self);;
  mret (mkInstance (Some k) (row self)).

(** The transactions whose foreign key is the wallet [k]. *)
Definition transactions_of (k : Z) (txs : gmap Z Transaction) : gmap Z Transaction :=
  filter (λ kt, wallet kt.2 = k) txs.

(** [post_delete] is sent once for each transaction a cascade deleted. *)
Definition send_post_delete (deleted : list (Z * Transaction)) : DB unit :=
  foldr (λ kt rest,
           update_wallet_balance_on_transaction_delete
             (mkInstance (Some kt.1) kt.2);; rest)
        (mret tt) deleted.

(** [Model.delete] on a [Wallet]: [on_delete=models.CASCADE] deletes
    the wallet's transactions (rows first, then one [post_delete] per
    transaction), then the wallet row.  [Transaction.delete] is not
    called on this path. *)
Definition Wallet_delete (self : Instance Wallet) : DB unit :=
  match pk self with
  | None => raise ValueError
  | Some k =>
      atomic (
        txs ← gets transactions;
        let related := map_to_list (transactions_of k txs) in
        modify (λ s, {| wallets := wallets s;
                        transactions := filter (λ kt, wallet kt.2 ≠ k) txs |});;
        send_post_delete related;;
        modify (λ s, {| wallets := delete k (wallets s);
                        transactions := transactions s |}))
  end.

(** ** api/serializers.py *)

(** The [amount] a request body carries, as the serializer field hands
    it to [validate_amount]: a finite [Decimal], or anything else
    together with the finite decimal [Decimal(str(value))] makes of it
    ([None] when the conversion raises).  The field turns NaN and
    Infinity away itself. *)
Inductive AmountValue :=
| DecimalValue (d : Decimal.t)
| OtherValue (converted : option Decimal.t).

(** Everything [validate_amount] can be called with: a value of the
    kind above, a [Decimal] that is NaN or an infinity, or a
    non-[Decimal] that [Decimal(str(value))] turns into one of those
    (the float [nan], the string ['Infinity']). *)
Inductive AmountArgument :=
| FieldValue (value : AmountValue)
| SpecialValue (s : Decimal.special)
| OtherSpecialValue (converted : Decimal.special).

Coercion FieldValue : AmountValue >-> AmountArgument.

(** [TransactionSerializer.validate_amount].  The exponent of a special
    value is a string, and comparing it with [-18] raises [TypeError]. *)
Definition validate_amount (value : AmountArgument) : Outcome Decimal.t :=
  let converted : Outcome (Decimal.t + Decimal.special) :=
    match value with
    | FieldValue (DecimalValue d) => Ok (inl d)
    | SpecialValue s => Ok (inr s)
    | FieldValue (OtherValue (Some d)) => Ok (inl d)
    | OtherSpecialValue s => Ok (inr s)
    | FieldValue (OtherValue None) =>
        Raise (SerializerValidationError (Message InvalidAmountFormat))
    end in
  match converted with
  | Raise e => Raise e
  | Ok (inr _) => Raise TypeError
  | Ok (inl value) =>
      if Decimal.exponent value <? -18
      then Raise (SerializerValidationError (Message PrecisionExceeded))
      else Ok value
  end.

(** [TransactionSerializer.validate_txid]; [instance] is the
    serializer's [instance] attribute. *)
Definition validate_txid (instance : option (Instance Transaction))
    (value : string) : DB string :=
  if match instance with
     | None => true
     | Some i => bool_decide (txid (row i) ≠ value)
     end
  then
    taken ← Transaction_objects_filter_txid_exists value;
    if taken : bool
    then raise (SerializerValidationError (Message DuplicateTxid))
    else mret value
  else mret value.

(** The [wallet] relationship field: the referenced wallet must be in
    [Wallet.objects.all()]. *)
Definition wallet_field (id : Z) : DB Z :=
  try_except (Wallet_objects_get id;; mret id)
    (λ e, match e with
          | WalletDoesNotExist =>
              Some (raise (SerializerValidationError (Message RelatedDoesNotExist)))
          | _ => None
          end).

(** One round of the serializer's field loop: the field's errors are
    filed under its name. *)
Definition run_field {A} (name : string) (m : DB A) : DB (ErrorDict + A) :=
  try_except (a ← m; mret (inr a))
    (λ e, match e with
          | SerializerValidationError d =>
              Some (mret (inl (match d with
                               | Message r => [(name, r)]
                               | MessageDict d => d
                               end)))
          | _ => None
          end).

Definition field_errors {A} (r : ErrorDict + A) : ErrorDict :=
  match r with
  | inl d => d
  | inr _ => []
  end.

(** The body of a create request. *)
Record TransactionData := mkTransactionData {
  data_wallet : Z;
  data_txid : string;
  data_amount : AmountValue
}.

Record ValidatedData := mkValidatedData {
  validated_wallet : Z;
  validated_txid : string;
  validated_amount : Decimal.t
}.

(** The body of a partial update: the attributes present. *)
Record TransactionPatch := mkTransactionPatch {
  patch_wallet : option Z;
  patch_txid : option string;
  patch_amount : option AmountValue
}.

Record ValidatedPatch := mkValidatedPatch {
  changed_wallet : option Z;
  changed_txid : option string;
  changed_amount : option Decimal.t
}.

(** [serializer.is_valid(raise_exception=True)] without an instance:
    the fields are validated in the order of [Meta.fields] and all
    their errors are reported. *)
Definition is_valid_create (data : TransactionData) : DB ValidatedData :=
  w ← run_field "wallet" (wallet_field (data_wallet data));
  t ← run_field "txid" (validate_txid None (data_txid data));
  a ← run_field "amount" (lift (validate_amount (data_amount data)));
  match w, t, a with
  | inr w, inr t, inr a => mret (mkValidatedData w t a)
  | _, _, _ =>
      raise (SerializerValidationError
               (MessageDict (field_errors w ++ field_errors t ++ field_errors a)))
  end.

(** A field that may be absent from the request body. *)
Definition run_optional_field {A B} (name : string) (value : option A)
    (validate : A → DB B) : DB (ErrorDict + option B) :=
  match value with
  | None => mret (inr None)
  | Some v => r ← run_field name (validate v);
              mret (match r with inl d => inl d | inr b => inr (Some b) end)
  end.

(** [serializer.is_valid(raise_exception=True)] with an instance and
    [partial=True]. *)
Definition is_valid_update (instance : Instance Transaction)
    (data : TransactionPatch) : DB ValidatedPatch :=
  w ← run_optional_field "wallet" (patch_wallet data) wallet_field;
  t ← run_optional_field "txid" (patch_txid data) (validate_txid (Some instance));
  a ← run_optional_field "amount" (patch_amount data) (λ v, lift (validate_amount v));
  match w, t, a with
  | inr w, inr t, inr a => mret (mkValidatedPatch w t a)
  | _, _, _ =>
      raise (SerializerValidationError
               (MessageDict (field_errors w ++ field_errors t ++ field_errors a)))
  end.

(** [TransactionSerializer.create] *)
Definition TransactionSerializer_create (validated_data : ValidatedData)
    : DB (Instance Transaction) :=
  let wallet_instance := validated_wallet validated_data in
  let transaction_instance :=
    mkInstance None
      {| wallet := wallet_instance;
         txid := validated_txid validated_data;
         amount := Decimal.to_units (validated_amount validated_data) |} in
  Model_full_clean transaction_instance;;
  Transaction_save transaction_instance.

(** [TransactionSerializer.update] *)
Definition TransactionSerializer_update (instance : Instance Transaction)
    (validated_data : ValidatedPatch) : DB (Instance Transaction) :=
  let instance :=
    mkInstance (pk instance)
      {| wallet := default (wallet (row instance)) (changed_wallet validated_data);
         txid := default (txid (row instance)) (changed_txid validated_data);
         amount := default (amount (row instance))
                     (Decimal.to_units <$> changed_amount validated_data) |} in
  Model_full_clean instance;;
  Transaction_save instance.

(** ** api/views.py *)

(** [except DjangoValidationError as e:
       raise serializers.ValidationError(e.message_dict)] *)
Definition reraise_message_dict {A} (e : Exception) : option (DB A) :=
  match e with
  | DjangoValidationError d =>
      Some (match message_dict d with
            | Some md => raise (SerializerValidationError (MessageDict md))
            | None => raise AttributeError
            end)
  | _ => None
  end.

(** [except DjangoValidationError as e:
       detail_message = e.message_dict if hasattr(e, 'message_dict') else e.message
       raise serializers.ValidationError(detail_message)] *)
Definition reraise_detail {A} (e : Exception) : option (DB A) :=
  match e with
  | DjangoValidationError d => Some (raise (SerializerValidationError d))
  | _ => None
  end.

Module TransactionViewSet.

Definition http_method_names : list string :=
  ["get"; "post"; "delete"; "head"; "options"].

(** [get_object()] *)
Definition get_object (k : Z) : DB (Instance Transaction) :=
  try_except (t ← Transaction_objects_get k; mret (mkInstance (Some k) t))
    (λ e, match e with
          | TransactionDoesNotExist => Some (raise Http404)
          | _ => None
          end).

(** [perform_create]; [serializer.save()] runs the serializer's
    [create] on the validated data. *)
Definition perform_create (validated_data : ValidatedData)
    : DB (Instance Transaction) :=
  atomic (try_except (TransactionSerializer_create validated_data)
            reraise_message_dict).

(** [perform_destroy] *)
Definition perform_destroy (instance : Instance Transaction) : DB unit :=
  atomic (try_except (Transaction_delete instance) reraise_detail).

(** [CreateModelMixin.create] *)
Definition create (data : TransactionData) : DB (Instance Transaction) :=
  validated_data ← is_valid_create data;
  perform_create validated_data.

(** [DestroyModelMixin.destroy] *)
Definition destroy (k : Z) : DB unit :=
  instance ← get_object k;
  perform_destroy instance.

End TransactionViewSet.

(** The serializer's update path for an amount edit, as a caller of the
    serializer runs it: load the instance, validate the new amount, save.
    No view of [TransactionViewSet] reaches it. *)
Definition update_transaction_amount (tx_id : Z) (new_amount : AmountValue)
    : DB (Instance Transaction) :=
  instance ← TransactionViewSet.get_object tx_id;
  validated_data ← is_valid_update instance
                     (mkTransactionPatch None None (Some new_amount));
  TransactionSerializer_update instance validated_data.

Module WalletViewSet.

(** [ModelViewSet] keeps the framework's default methods. *)
Definition http_method_names : list string :=
  ["get"; "post"; "put"; "patch"; "delete"; "head"; "options"; "trace"].

Definition get_object (k : Z) : DB (Instance Wallet) :=
  try_except (w ← Wallet_objects_get k; mret (mkInstance (Some k) w))
    (λ e, match e with
          | WalletDoesNotExist => Some (raise Http404)
          | _ => None
          end).

(** The [label] field of [WalletSerializer]: [unique=True]. *)
Definition validate_label (instance : option (Instance Wallet))
    (value : string) : DB string :=
  ws ← gets wallets;
  if label_taken value (instance ≫= pk) ws
  then raise (SerializerValidationError (MessageDict [("label", UniqueViolation)]))
  else mret value.

(** [perform_create]: [balance] is read-only in [WalletSerializer],
    so the new row takes the column default [Decimal('0.00')]. *)
Definition perform_create (validated_label : string) : DB (Instance Wallet) :=
  atomic (try_except
            (Wallet_save (mkInstance None {| label := validated_label; balance := 0 |}))
            reraise_message_dict).

(** [perform_update]: only [label] is writable. *)
Definition perform_update (instance : Instance Wallet) (validated_label : string)
    : DB (Instance Wallet) :=
  atomic (try_except
            (Wallet_save (mkInstance (pk instance)
                            {| label := validated_label;
                               balance := balance (row instance) |}))
            reraise_message_dict).

(** [perform_destroy] *)
Definition perform_destroy (instance : Instance Wallet) : DB unit :=
  atomic (try_except (Wallet_delete instance) reraise_detail).

Definition create (new_label : string) : DB (Instance Wallet) :=
  validated_label ← validate_label None new_label;
  perform_create validated_label.

Definition partial_update (k : Z) (new_label : string) : DB (Instance Wallet) :=
  instance ← get_object k;
  validated_label ← validate_label (Some instance) new_label;
  perform_update instance validated_label.

Definition destroy (k : Z) : DB unit :=
  instance ← get_object k;
  perform_destroy instance.

End WalletViewSet.

(** ** Requests *)

Inductive Request :=
| PostTransaction (data : TransactionData)
| PatchTransaction (k : Z) (data : TransactionPatch)
| DeleteTransaction (k : Z)
| PostWallet (new_label : string)
| PatchWallet (k : Z) (new_label : string)
| DeleteWallet (k : Z).

Definition http_method (r : Request) : string :=
  match r with
  | PostTransaction _ | PostWallet _ => "post"
  | PatchTransaction _ _ | PatchWallet _ _ => "patch"
  | DeleteTransaction _ | DeleteWallet _ => "delete"
  end.

Definition allowed_methods (r : Request) : list string :=
  match r with
  | PostTransaction _ | PatchTransaction _ _ | DeleteTransaction _ =>
      TransactionViewSet.http_method_names
  | PostWallet _ | PatchWallet _ _ | DeleteWallet _ =>
      WalletViewSet.http_method_names
  end.

(** The view's [dispatch]: a method outside [http_method_names], or one
    the view set has no action for, is answered with 405. *)
Definition dispatch (r : Request) : DB unit :=
  if bool_decide (http_method r ∈ allowed_methods r)
  then
    match r with
    | PostTransaction data => TransactionViewSet.create data;; mret tt
    | PatchTransaction _ _ => raise MethodNotAllowed
    | DeleteTransaction k => TransactionViewSet.destroy k
    | PostWallet l => WalletViewSet.create l;; mret tt
    | PatchWallet k l => WalletViewSet.partial_update k l;; mret tt
    | DeleteWallet k => WalletViewSet.destroy k
    end
  else raise MethodNotAllowed.

(** ** State predicates *)

(** Sum of the amounts of the transactions that reference wallet [w]. *)
Definition transaction_sum (w : Z) (txs : gmap Z Transaction) : Z :=
  map_fold (λ _ t acc, if decide (wallet t = w) then amount t + acc else acc) 0 txs.

(** Every wallet's balance is the sum of its transactions. *)
Definition balance_is_sum (s : Store) : Prop :=
  ∀ k w, wallets s !! k = Some w → balance w = transaction_sum k (transactions s).

(** No wallet has a negative balance. *)
Definition balances_nonneg (s : Store) : Prop :=
  ∀ k w, wallets s !! k = Some w → 0 ≤ balance w.

(** No two transactions share a txid. *)
Definition txids_distinct (s : Store) : Prop :=
  ∀ k1 k2 t1 t2,
    transactions s !! k1 = Some t1 → transactions s !! k2 = Some t2 →
    txid t1 = txid t2 → k1 = k2.

(** Every transaction's wallet exists. *)
Definition foreign_keys_valid (s : Store) : Prop :=
  ∀ k t, transactions s !! k = Some t → is_Some (wallets s !! wallet t).

(** * Notions used in the statements

    Predicates on computations, the closed forms the methods are proved
    equal to, and a small running example. *)

(** [m] never writes. *)
Definition readonly {A} (m : DB A) : Prop := ∀ s, (m s).2 = s.

(** [m] leaves no write behind when it raises. *)
Definition rollback_on_error {A} (m : DB A) : Prop :=
  ∀ s e s', m s = (Raise e, s') → s' = s.

(** [m] never raises. *)
Definition infallible {A} (m : DB A) : Prop :=
  ∀ s, ∃ a s', m s = (Ok a, s').

(** What one transaction contributes to the sum of wallet [w]. *)
Definition contribution (w : Z) (t : Transaction) : Z :=
  if decide (wallet t = w) then amount t else 0.

(** The error of the balance check in [Transaction.clean]. *)
Definition negative_balance_error : Exception :=
  DjangoValidationError (MessageDict [("amount", NegativeBalance)]).

(** What [Transaction.clean] answers in store [s]. *)
(** The prospective balance [Transaction.clean] computes when the
    instance has a primary key: two operations, each rounded. *)
Definition edit_prospective_balance (current new old : Z) : Z :=
  Decimal.add current (Decimal.sub new old).
Arguments edit_prospective_balance : simpl never.

Definition clean_outcome (self : Instance Transaction) (s : Store) : Outcome unit :=
  match wallets s !! wallet (row self) with
  | None => Raise (DjangoValidationError (MessageDict [("wallet", WalletMissing)]))
  | Some w =>
      if not_pk (pk self)
      then if balance w + amount (row self) <? 0
           then Raise negative_balance_error else Ok tt
      else match transactions s !! default 0 (pk self) with
           | None => Raise (DjangoValidationError (Message UpdateTargetMissing))
           | Some old =>
               if edit_prospective_balance (balance w) (amount (row self))
                    (amount old) <? 0
               then Raise negative_balance_error else Ok tt
           end
  end.

(** The errors [full_clean] keeps from [clean] and from the unique
    check. *)
Definition clean_errors (self : Instance Transaction) (s : Store) : ErrorDict :=
  match clean_outcome self s with
  | Raise (DjangoValidationError d) => error_dict d
  | _ => []
  end.

Definition unique_errors (self : Instance Transaction) (s : Store) : ErrorDict :=
  if txid_taken (txid (row self)) (pk self) (transactions s)
  then [("txid", UniqueViolation)] else [].

(** The key under which [Model.save] writes, and whether it inserts. *)
Definition save_key (self : Instance Transaction) (s : Store) : Z :=
  match pk self with
  | Some k => k
  | None => next_pk (transactions s)
  end.

Definition save_creates (self : Instance Transaction) (s : Store) : bool :=
  match pk self with
  | Some k => bool_decide (transactions s !! k = None)
  | None => true
  end.

(** The store [Model.save] leaves: the row written, and the amount
    added to the wallet when the row is new. *)
Definition after_save (self : Instance Transaction) (s : Store) : Store :=
  {| wallets :=
       if save_creates self s
       then alter (set_balance (λ b, b + amount (row self)))
              (wallet (row self)) (wallets s)
       else wallets s;
     transactions := <[save_key self s := row self]> (transactions s) |}.

(** The errors of the three fields of a create request. *)
Definition wallet_field_errors (data : TransactionData) (s : Store) : ErrorDict :=
  match wallets s !! data_wallet data with
  | Some _ => []
  | None => [("wallet", RelatedDoesNotExist)]
  end.

Definition txid_field_errors (data : TransactionData) (s : Store) : ErrorDict :=
  if txid_taken (data_txid data) None (transactions s)
  then [("txid", DuplicateTxid)] else [].

Definition amount_field_errors (value : AmountValue) : ErrorDict :=
  match validate_amount value with
  | Ok _ => []
  | Raise (SerializerValidationError (Message r)) => [("amount", r)]
  | Raise _ => []
  end.

Definition create_field_errors (data : TransactionData) (s : Store) : ErrorDict :=
  wallet_field_errors data s ++ txid_field_errors data s
  ++ amount_field_errors (data_amount data).

(** The instance [TransactionSerializer.create] builds. *)
Definition new_instance (data : TransactionData) (d : Decimal.t) : Instance Transaction :=
  mkInstance None
    {| wallet := data_wallet data; txid := data_txid data;
       amount := Decimal.to_units d |}.

(** The error of the balance check in [Transaction.delete], and the
    store a delete leaves. *)
Definition negative_balance_on_delete : ErrorDetail :=
  MessageDict [("non_field_errors", NegativeBalanceOnDelete)].

Definition after_delete (k : Z) (t : Transaction) (s : Store) : Store :=
  {| wallets := alter (set_balance (λ b, b - amount t)) (wallet t) (wallets s);
     transactions := delete k (transactions s) |}.

(** The instance [TransactionSerializer.update] saves for a new amount. *)
Definition edited (k : Z) (t : Transaction) (d : Decimal.t) : Instance Transaction :=
  mkInstance (Some k)
    {| wallet := wallet t; txid := txid t; amount := Decimal.to_units d |}.

(** The store a wallet deletion leaves. *)
Definition after_wallet_delete (k : Z) (s : Store) : Store :=
  {| wallets := delete k (wallets s);
     transactions := filter (λ kt, wallet kt.2 ≠ k) (transactions s) |}.

#[export] Instance balances_nonneg_dec s : Decision (balances_nonneg s) :=
  decide (map_Forall (λ _ w, 0 ≤ balance w) (wallets s)).

(** A whole number of currency units as a column value. *)
Definition whole (n : Z) : Z := n * 10 ^ 18.

(** [Decimal('50.0')], [Decimal('70')], [Decimal('-60.00')] *)
Definition fifty : Decimal.t := Decimal.mk false 500 (-1).
Definition seventy : Decimal.t := Decimal.mk false 70 0.
Definition minus_sixty : Decimal.t := Decimal.mk true 6000 (-2).

(** [Decimal('12345.123456789012345678')] and
    [Decimal('0.1234567890123456789')] of the precision test. *)
Definition amount_precise : Decimal.t :=
  Decimal.mk false 12345123456789012345678 (-18).
Definition amount_too_precise : Decimal.t :=
  Decimal.mk false 1234567890123456789 (-19).

(** The store with no wallet and no transaction. *)
Definition empty_store : Store := {| wallets := ∅; transactions := ∅ |}.

(** The stores the API can produce from the empty one. *)
Inductive reachable : Store → Prop :=
| reachable_empty : reachable empty_store
| reachable_dispatch r s : reachable s → reachable (dispatch r s).2.

(** One wallet holding one deposit of 50. *)
Definition one_deposit : Store :=
  {| wallets := {[ 1 := {| label := "Test Wallet"; balance := whole 50 |} ]};
     transactions :=
       {[ 1 := {| wallet := 1; txid := "deposit-tx-1"; amount := whole 50 |} ]} |}.

(** [Decimal('100000000000.000000000000000049')] and
    [Decimal('-0.000000000000000049')]: thirty and eighteen digits. *)
Definition large_amount : Decimal.t :=
  Decimal.mk false 100000000000000000000000000049 (-18).
Definition minus_dust : Decimal.t := Decimal.mk true 49 (-18).

(** One wallet holding 100000000000: a deposit of
    100000000000.000000000000000049 and a withdrawal of
    0.000000000000000049. *)
Definition large_deposit : Store :=
  {| wallets := {[ 1 := {| label := "Large Wallet"; balance := whole 100000000000 |} ]};
     transactions :=
       {[ 1 := {| wallet := 1; txid := "large-tx-1"; amount := whole 100000000000 + 49 |};
          2 := {| wallet := 1; txid := "dust-tx-2"; amount := -49 |} ]} |}.

(** The deposit of that store, loaded and given the amount 0. *)
Definition zeroed_deposit : Instance Transaction :=
  mkInstance (Some 1) {| wallet := 1; txid := "large-tx-1"; amount := 0 |}.

(** The reading of C3 that the code is checked against: an amount edit
    that passes validation commits, stores the new amount and moves the
    wallet's balance by the difference. *)
Definition amount_update_moves_balance (s : Store) (k : Z) (d : Decimal.t) : Prop :=
  ∀ t w,
    transactions s !! k = Some t → wallets s !! wallet t = Some w →
    ∃ i s' w',
      update_transaction_amount k (DecimalValue d) s = (Ok i, s') ∧
      transactions s' !! k = Some (row (edited k t d)) ∧
      wallets s' !! wallet t = Some w' ∧
      balance w' = balance w + (Decimal.to_units d - amount t).

(** No two wallets share a label ([unique=True]). *)
Definition labels_distinct (s : Store) : Prop :=
  ∀ k1 k2 w1 w2,
    wallets s !! k1 = Some w1 → wallets s !! k2 = Some w2 →
    label w1 = label w2 → k1 = k2.

(** The serializer's update path for any set of attributes, as a caller
    of the serializer runs it: load the instance, validate the attributes
    present, save. *)
Definition update_transaction (tx_id : Z) (data : TransactionPatch)
    : DB (Instance Transaction) :=
  instance ← TransactionViewSet.get_object tx_id;
  validated_data ← is_valid_update instance data;
  TransactionSerializer_update instance validated_data.

(** The names under which the views report validation errors. *)
Definition error_keys : list string :=
  ["wallet"; "txid"; "amount"; "non_field_errors"; "label"].

(** What a client of the API can be answered on failure: 404, 405, or
    400 with a non-empty dict of reasons filed under known names. *)
Definition api_error (e : Exception) : Prop :=
  e = Http404 ∨ e = MethodNotAllowed ∨
  ∃ d, e = SerializerValidationError (MessageDict d) ∧ d ≠ [] ∧
       ∀ key r, (key, r) ∈ d → key ∈ error_keys.

(** The instance [TransactionSerializer.update] saves: the attributes
    present in the validated data replace those of the instance. *)
Definition patched (instance : Instance Transaction) (validated_data : ValidatedPatch)
    : Instance Transaction :=
  mkInstance (pk instance)
    {| wallet := default (wallet (row instance)) (changed_wallet validated_data);
       txid := default (txid (row instance)) (changed_txid validated_data);
       amount := default (amount (row instance))
                   (Decimal.to_units <$> changed_amount validated_data) |}.

(** * Properties *)

(** ** Computations and their effect on the store *)

Ltac unfold_db :=
  unfold mbind, DB_bind, mret, DB_ret, raise, lift, gets, modify,
    try_except, atomic in *.

Section Combinators.
Context {A B : Type}.
Implicit Types (m : DB A) (f : A → DB B).

Lemma readonly_ret (a : A) : readonly (mret a : DB A).
Proof. by intros s. Qed.

Lemma readonly_raise (e : Exception) : readonly (raise e : DB A).
Proof. by intros s. Qed.

Lemma readonly_lift (o : Outcome A) : readonly (lift o).
Proof. by intros s. Qed.

Lemma readonly_gets (g : Store → A) : readonly (gets g).
Proof. by intros s. Qed.

Lemma readonly_bind m f :
  readonly m → (∀ a, readonly (f a)) → readonly (m ≫= f).
Proof.
  intros Hm Hf s. unfold_db. specialize (Hm s).
  destruct (m s) as [[a|e] s1]; simpl in *; subst; [apply Hf | done].
Qed.

Lemma readonly_try_except m (h : Exception → option (DB A)) :
  readonly m → (∀ e k, h e = Some k → readonly k) →
  readonly (try_except m h).
Proof.
  intros Hm Hh s. unfold_db. specialize (Hm s).
  destruct (m s) as [[a|e] s1]; simpl in *; subst; [done |].
  destruct (h e) as [k|] eqn:He; [by apply (Hh e) | done].
Qed.

Lemma readonly_rollback m : readonly m → rollback_on_error m.
Proof. intros Hm s e s' Hs. specialize (Hm s). by rewrite Hs in Hm. Qed.

Lemma rollback_atomic m : rollback_on_error (atomic m).
Proof.
  intros s e s'. unfold_db. destruct (m s) as [[a|e'] s1]; congruence.
Qed.

(** Checks first, writes after: the checks read, the writes cannot fail
    half-way. *)
Lemma rollback_bind_readonly m f :
  readonly m → (∀ a, rollback_on_error (f a)) → rollback_on_error (m ≫= f).
Proof.
  intros Hm Hf s e s'. unfold_db. specialize (Hm s).
  destruct (m s) as [[a|e'] s1]; simpl in *; subst.
  - apply Hf.
  - congruence.
Qed.

Lemma rollback_bind_infallible m f :
  rollback_on_error m → (∀ a, infallible (f a)) → rollback_on_error (m ≫= f).
Proof.
  intros Hm Hf s e s'. unfold_db.
  destruct (m s) as [[a|e'] s1] eqn:Hs.
  - destruct (Hf a s1) as (b & s2 & ->). congruence.
  - intros [= <- <-]. by eapply Hm.
Qed.

Lemma infallible_bind m f :
  infallible m → (∀ a, infallible (f a)) → infallible (m ≫= f).
Proof.
  intros Hm Hf s. unfold_db. destruct (Hm s) as (a & s1 & ->). apply Hf.
Qed.

Lemma infallible_ret (a : A) : infallible (mret a : DB A).
Proof. intros s. by exists a, s. Qed.

Lemma infallible_atomic m : infallible m → infallible (atomic m).
Proof. intros Hm s. unfold_db. destruct (Hm s) as (a & s1 & ->). eauto. Qed.

End Combinators.

Lemma infallible_modify (f : Store → Store) : infallible (modify f).
Proof. intros s. by exists tt, (f s). Qed.

Lemma infallible_gets {A} (g : Store → A) : infallible (gets g).
Proof. intros s. by exists (g s), s. Qed.

(** ** Keys and sums *)

Lemma next_pk_above {R} (m : gmap Z R) k : is_Some (m !! k) → k < next_pk m.
Proof.
  unfold next_pk. revert k.
  apply (map_fold_weak_ind (λ r (m : gmap Z R), ∀ k, is_Some (m !! k) → k < 1 + r)).
  - intros k [x Hx]. by rewrite lookup_empty in Hx.
  - intros i x m' r Hi IH k [y Hy].
    destruct (decide (i = k)) as [->|Hne]; [lia |].
    rewrite lookup_insert_ne in Hy by done.
    specialize (IH k (ex_intro _ y Hy)). lia.
Qed.

Lemma next_pk_fresh {R} (m : gmap Z R) : m !! next_pk m = None.
Proof.
  destruct (m !! next_pk m) as [x|] eqn:Hx; [| done].
  pose proof (next_pk_above m (next_pk m) (ex_intro _ x Hx)). lia.
Qed.

Lemma next_pk_positive {R} (m : gmap Z R) : 0 < next_pk m.
Proof.
  unfold next_pk.
  enough (0 ≤ map_fold (λ k (_ : R) acc, Z.max k acc) 0 m) by lia.
  apply (map_fold_weak_ind (λ r (_ : gmap Z R), 0 ≤ r)); [done | intros; lia].
Qed.

Lemma transaction_sum_insert w k t (txs : gmap Z Transaction) :
  txs !! k = None →
  transaction_sum w (<[k := t]> txs) = contribution w t + transaction_sum w txs.
Proof.
  intros Hk. unfold transaction_sum, contribution.
  rewrite map_fold_insert_L; [| | done].
  - by destruct (decide (wallet t = w)).
  - intros. repeat case_decide; lia.
Qed.

Lemma transaction_sum_delete w k t (txs : gmap Z Transaction) :
  txs !! k = Some t →
  transaction_sum w txs = contribution w t + transaction_sum w (delete k txs).
Proof.
  intros Hk. unfold transaction_sum, contribution.
  rewrite (map_fold_delete_L _ _ k t txs); [| | done].
  - by destruct (decide (wallet t = w)).
  - intros. repeat case_decide; lia.
Qed.

Lemma transaction_sum_replace w k t t' (txs : gmap Z Transaction) :
  txs !! k = Some t →
  transaction_sum w (<[k := t']> txs)
  = transaction_sum w txs - contribution w t + contribution w t'.
Proof.
  intros Hk. rewrite <- insert_delete_eq.
  rewrite transaction_sum_insert by apply lookup_delete_eq.
  rewrite (transaction_sum_delete w k t txs Hk). lia.
Qed.

(** ** Rounded arithmetic *)

Lemma excess_digits_bound fuel n :
  0 < n → 0 ≤ Decimal.excess_digits fuel n ∧ 10 ^ Decimal.excess_digits fuel n ≤ n.
Proof.
  revert n. induction fuel as [|fuel IH]; intros n Hn; simpl.
  - split; [done | change (10 ^ 0) with 1; lia].
  - destruct (n <? 10 ^ Decimal.prec) eqn:Hlt.
    + split; [done | change (10 ^ 0) with 1; lia].
    + apply Z.ltb_ge in Hlt.
      assert (10 ^ 27 ≤ n / 10) as Hq.
      { apply Z.div_le_lower_bound; [lia |].
        change (10 * 10 ^ 27) with (10 ^ Decimal.prec). lia. }
      assert (0 < 10 ^ 27) as H27 by (by apply Z.pow_pos_nonneg).
      destruct (IH (n / 10)) as [Hk Hle]; [lia |].
      split; [lia |].
      replace (1 + Decimal.excess_digits fuel (n / 10))
        with (Z.succ (Decimal.excess_digits fuel (n / 10))) by lia.
      rewrite Z.pow_succ_r by done.
      pose proof (Z.mul_div_le n 10). lia.
Qed.

Lemma excess_digits_small fuel n :
  n < 10 ^ Decimal.prec → Decimal.excess_digits fuel n = 0.
Proof.
  intros Hn. destruct fuel as [|fuel]; [done |]. simpl.
  by rewrite (proj2 (Z.ltb_lt _ _) Hn).
Qed.

Lemma round_coefficient_pos n : 0 < n → 0 < Decimal.round_coefficient n.
Proof.
  intros Hn. unfold Decimal.round_coefficient.
  destruct (excess_digits_bound (Z.to_nat (Z.log2 n)) n Hn) as [Hk Hle].
  set (k := Decimal.excess_digits _ n) in *.
  assert (0 < 10 ^ k) as Hp by (by apply Z.pow_pos_nonneg).
  assert (1 ≤ n / 10 ^ k) as Hq by (apply Z.div_le_lower_bound; lia).
  repeat case_match; nia.
Qed.

Lemma excess_digits_enough fuel n :
  0 ≤ n → n < 10 ^ Decimal.prec * 10 ^ Z.of_nat fuel →
  n / 10 ^ Decimal.excess_digits fuel n < 10 ^ Decimal.prec.
Proof.
  revert n. induction fuel as [|fuel IH]; intros n Hn Hlt.
  - simpl. change (10 ^ 0) with 1 in *. rewrite Z.div_1_r. lia.
  - cbn [Decimal.excess_digits].
    destruct (n <? 10 ^ Decimal.prec) eqn:Hsmall.
    + apply Z.ltb_lt in Hsmall. change (10 ^ 0) with 1. by rewrite Z.div_1_r.
    + destruct (excess_digits_bound fuel (n / 10)) as [Hk _].
      { apply Z.ltb_ge in Hsmall. apply Z.div_str_pos.
        assert (10 ≤ 10 ^ Decimal.prec) by (by vm_compute). lia. }
      replace (1 + Decimal.excess_digits fuel (n / 10))
        with (Z.succ (Decimal.excess_digits fuel (n / 10))) by lia.
      rewrite Z.pow_succ_r by done.
      rewrite <- Z.div_div by (try apply Z.pow_pos_nonneg; lia).
      apply IH; [apply Z.div_pos; lia |].
      apply Z.div_lt_upper_bound; [lia |].
      rewrite Nat2Z.inj_succ, Z.pow_succ_r in Hlt by lia. lia.
Qed.

Lemma log2_fuel n : 0 ≤ n → n < 10 ^ Decimal.prec * 10 ^ Z.of_nat (Z.to_nat (Z.log2 n)).
Proof.
  intros Hn. rewrite Z2Nat.id by apply Z.log2_nonneg.
  destruct (decide (n = 0)) as [->|Hne].
  { by vm_compute. }
  pose proof (Z.log2_spec n ltac:(lia)) as [_ Hup].
  pose proof (Z.log2_nonneg n) as Hl.
  assert (2 ^ Z.log2 n ≤ 10 ^ Z.log2 n) as Hpow by (apply Z.pow_le_mono_l; lia).
  rewrite Z.pow_succ_r in Hup by done.
  assert (2 ≤ 10 ^ Decimal.prec) by (by vm_compute).
  assert (0 < 2 ^ Z.log2 n) by (by apply Z.pow_pos_nonneg).
  nia.
Qed.

Lemma excess_digits_needed fuel n :
  0 ≤ n → 0 < Decimal.excess_digits fuel n →
  10 ^ (Decimal.prec - 1) ≤ n / 10 ^ Decimal.excess_digits fuel n.
Proof.
  revert n. induction fuel as [|fuel IH]; intros n Hn; cbn [Decimal.excess_digits];
    [lia |].
  destruct (n <? 10 ^ Decimal.prec) eqn:Hsmall; [lia |]. intros _.
  apply Z.ltb_ge in Hsmall.
  assert (10 ^ (Decimal.prec - 1) ≤ n / 10) as Hq.
  { apply Z.div_le_lower_bound; [lia |].
    change (10 * 10 ^ (Decimal.prec - 1)) with (10 ^ Decimal.prec). lia. }
  assert (0 < 10 ^ (Decimal.prec - 1)) as H27 by (by vm_compute).
  destruct (excess_digits_bound fuel (n / 10)) as [Hk _]; [lia |].
  replace (1 + Decimal.excess_digits fuel (n / 10))
    with (Z.succ (Decimal.excess_digits fuel (n / 10))) by lia.
  rewrite Z.pow_succ_r by done.
  rewrite <- Z.div_div by (try apply Z.pow_pos_nonneg; lia).
  destruct (decide (Decimal.excess_digits fuel (n / 10) = 0)) as [->|Hne].
  - change (10 ^ 0) with 1. by rewrite Z.div_1_r.
  - apply IH; lia.
Qed.

(** What [round_coefficient] computes: a number of at most [prec]
    digits, and of exactly that many where digits were dropped, shifted
    by the digits dropped; a nearest such number, the even one of two
    nearest. *)
Lemma round_coefficient_nearest n :
  0 < n →
  ∃ k q, 0 ≤ k ∧ 0 < q ≤ 10 ^ Decimal.prec ∧
         Decimal.round_coefficient n = q * 10 ^ k ∧
         2 * Z.abs (Decimal.round_coefficient n - n) ≤ 10 ^ k ∧
         (2 * Z.abs (Decimal.round_coefficient n - n) = 10 ^ k → Z.even q = true) ∧
         (k = 0 ∨ 10 ^ (Decimal.prec - 1) ≤ q).
Proof.
  intros Hn. unfold Decimal.round_coefficient.
  destruct (excess_digits_bound (Z.to_nat (Z.log2 n)) n Hn) as [Hk Hle].
  pose proof (excess_digits_enough (Z.to_nat (Z.log2 n)) n ltac:(lia)
                (log2_fuel n ltac:(lia))) as Hq.
  pose proof (excess_digits_needed (Z.to_nat (Z.log2 n)) n ltac:(lia)) as Hlow.
  set (k := Decimal.excess_digits _ n) in *.
  assert (0 < 10 ^ k) as Hp by (by apply Z.pow_pos_nonneg).
  assert (1 ≤ n / 10 ^ k) as Hq1 by (apply Z.div_le_lower_bound; lia).
  pose proof (Z.div_mod n (10 ^ k) ltac:(lia)) as Hdm.
  pose proof (Z.mod_pos_bound n (10 ^ k) Hp) as Hr.
  set (q := n / 10 ^ k) in *. set (r := n mod 10 ^ k) in *.
  assert (k = 0 ∨ 10 ^ (Decimal.prec - 1) ≤ q) as Hlow' by lia.
  assert (k = 0 → r = 0) as Hr0.
  { intros Hk0. subst r. rewrite Hk0. change (10 ^ 0) with 1. apply Z.mod_1_r. }
  destruct (2 * r <? 10 ^ k) eqn:Hlt; [apply Z.ltb_lt in Hlt | apply Z.ltb_ge in Hlt].
  { exists k, q. repeat split; try lia; try nia. }
  assert (k ≠ 0) as Hknz.
  { intros Hk0. specialize (Hr0 Hk0). rewrite Hk0 in Hlt. change (10 ^ 0) with 1 in Hlt. lia. }
  destruct ((2 * r =? 10 ^ k) && Z.even q) eqn:Htie.
  - apply andb_true_iff in Htie as [Heq%Z.eqb_eq Hev].
    exists k, q. repeat split; try lia; try nia. done.
  - exists k, (q + 1). repeat split; try lia; try nia.
    intros Htie'. apply andb_false_iff in Htie as [Hne%Z.eqb_neq | Hodd].
    + nia.
    + rewrite Z.even_add. rewrite Hodd. done.
Qed.

(** Below [prec] digits nothing is rounded. *)
Lemma round_exact x : Z.abs x < 10 ^ Decimal.prec → Decimal.round x = x.
Proof.
  intros Hx. unfold Decimal.round, Decimal.round_coefficient.
  rewrite excess_digits_small by done.
  change (10 ^ 0) with 1. rewrite Z.mod_1_r, Z.div_1_r. simpl. lia.
Qed.

(** Rounding keeps the sign. *)
Lemma round_negative x : (Decimal.round x <? 0) = (x <? 0).
Proof.
  unfold Decimal.round.
  destruct (Z.lt_trichotomy x 0) as [Hx | [-> | Hx]].
  - pose proof (round_coefficient_pos (Z.abs x)).
    rewrite Z.sgn_neg by done.
    rewrite (proj2 (Z.ltb_lt x 0)) by done. apply Z.ltb_lt. lia.
  - done.
  - pose proof (round_coefficient_pos (Z.abs x)).
    rewrite Z.sgn_pos by done.
    rewrite (proj2 (Z.ltb_ge x 0)) by lia. apply Z.ltb_ge. lia.
Qed.

Lemma add_negative a b : (Decimal.add a b <? 0) = (a + b <? 0).
Proof. apply round_negative. Qed.

Lemma sub_negative a b : (Decimal.sub a b <? 0) = (a - b <? 0).
Proof. apply round_negative. Qed.

Lemma sub_diag a : Decimal.sub a a = 0.
Proof. unfold Decimal.sub. by rewrite Z.sub_diag. Qed.

(** An edit that keeps the amount is checked against the balance as
    it stands. *)
Lemma edit_prospective_balance_same current a :
  (edit_prospective_balance current a a <? 0) = (current <? 0).
Proof.
  unfold edit_prospective_balance.
  by rewrite sub_diag, add_negative, Z.add_0_r.
Qed.

(** Where the difference and the sum have at most [prec] digits, the
    prospective balance of an edit is the exact one. *)
Lemma edit_prospective_balance_exact current new old :
  Z.abs (new - old) < 10 ^ Decimal.prec →
  Z.abs (current + (new - old)) < 10 ^ Decimal.prec →
  edit_prospective_balance current new old = current + (new - old).
Proof.
  intros Hd Hs. unfold edit_prospective_balance, Decimal.add, Decimal.sub.
  rewrite (round_exact (new - old)) by done. by apply round_exact.
Qed.

(** Two rounded operations on thirty-digit values: the balance and
    the old amount both 999999999999.999999999999999999 and the new
    amount 0 give -0.000000000000000001 where the exact result is 0;
    the balance 100000000000 and the old amount
    100000000000.000000000000000049 give 0 where the exact result is
    negative. *)
Lemma edit_prospective_balance_rounded :
  edit_prospective_balance (10 ^ 30 - 1) 0 (10 ^ 30 - 1) = -1 ∧
  edit_prospective_balance (10 ^ 29) 0 (10 ^ 29 + 49) = 0.
Proof. by vm_compute. Qed.

(** ** The model methods in closed form *)

Lemma Transaction_clean_eq self s :
  Transaction_clean self s = (clean_outcome self s, s).
Proof.
  unfold Transaction_clean, clean_outcome, Wallet_objects_get,
    Transaction_objects_get, negative_balance_error, edit_prospective_balance.
  unfold_db.
  destruct (wallets s !! wallet (row self)) as [w|]; [| done].
  destruct (not_pk (pk self)).
  - rewrite add_negative. by destruct (balance w + amount (row self) <? 0).
  - destruct (transactions s !! default 0 (pk self)) as [old|]; [| done].
    by destruct (_ <? 0).
Qed.

Lemma clean_outcome_raises self s e :
  clean_outcome self s = Raise e → ∃ d, e = DjangoValidationError d ∧ error_dict d ≠ [].
Proof.
  unfold clean_outcome, negative_balance_error. intros H.
  repeat (match type of H with
          | context [match ?x with _ => _ end] => destruct x
          end);
    simplify_eq; eexists; (split; [done | done]).
Qed.

Lemma clean_errors_nil self s :
  clean_errors self s = [] ↔ clean_outcome self s = Ok tt.
Proof.
  unfold clean_errors. destruct (clean_outcome self s) as [[]|e] eqn:Ho.
  - done.
  - destruct (clean_outcome_raises _ _ _ Ho) as (d & -> & Hd). split; [done | congruence].
Qed.

Lemma collect_clean_eq self s :
  collect_errors (Transaction_clean self) s = (Ok (clean_errors self s), s).
Proof.
  unfold collect_errors, clean_errors. unfold_db. rewrite Transaction_clean_eq.
  destruct (clean_outcome self s) as [[]|e] eqn:Ho; [done |].
  by destruct (clean_outcome_raises _ _ _ Ho) as (d & -> & _).
Qed.

Lemma collect_unique_eq self s :
  collect_errors (Transaction_validate_unique self) s = (Ok (unique_errors self s), s).
Proof.
  unfold collect_errors, Transaction_validate_unique, unique_errors. unfold_db.
  by destruct (txid_taken _ _ _).
Qed.

Lemma Model_full_clean_eq self s :
  Model_full_clean self s =
  (match clean_errors self s ++ unique_errors self s with
   | [] => Ok tt
   | errors => Raise (DjangoValidationError (MessageDict errors))
   end, s).
Proof.
  unfold Model_full_clean. unfold mbind, DB_bind.
  rewrite collect_clean_eq, collect_unique_eq.
  by destruct (clean_errors self s ++ unique_errors self s).
Qed.

Lemma readonly_Model_full_clean self : readonly (Model_full_clean self).
Proof. intros s. by rewrite Model_full_clean_eq. Qed.

(** [full_clean] passes exactly when both stages pass. *)
Lemma Model_full_clean_ok self s :
  (Model_full_clean self s).1 = Ok tt ↔
  clean_outcome self s = Ok tt ∧
  txid_taken (txid (row self)) (pk self) (transactions s) = false.
Proof.
  rewrite Model_full_clean_eq, <- clean_errors_nil. unfold unique_errors. simpl.
  destruct (clean_errors self s) as [|x l]; destruct (txid_taken _ _ _);
    simpl; intuition congruence.
Qed.

Lemma Model_full_clean_cases self s :
  (Model_full_clean self s = (Ok tt, s) ∧ clean_outcome self s = Ok tt ∧
   txid_taken (txid (row self)) (pk self) (transactions s) = false)
  ∨ (∃ errors, Model_full_clean self s
               = (Raise (DjangoValidationError (MessageDict errors)), s) ∧
               errors = clean_errors self s ++ unique_errors self s ∧ errors ≠ []).
Proof.
  pose proof (Model_full_clean_ok self s) as Hok.
  rewrite Model_full_clean_eq in *. simpl in Hok.
  destruct (clean_errors self s ++ unique_errors self s) as [|x l] eqn:He.
  - left. split; [done |]. by apply Hok.
  - right. by exists (x :: l).
Qed.

Lemma Model_save_eq self s :
  Model_save self s
  = (Ok (mkInstance (Some (save_key self s)) (row self)), after_save self s).
Proof.
  unfold Model_save, after_save, save_key, save_creates,
    put_transaction, update_wallet_balance_on_transaction_save,
    Wallet_objects_filter_update.
  unfold_db. simpl.
  destruct (pk self) as [k|]; simpl; [| done].
  by destruct (bool_decide (transactions s !! k = None)).
Qed.

Lemma infallible_Model_save self : infallible (Model_save self).
Proof. intros s. rewrite Model_save_eq. eauto. Qed.

Lemma Transaction_save_eq self s :
  Transaction_save self s =
  match clean_errors self s ++ unique_errors self s with
  | [] => (Ok (mkInstance (Some (save_key self s)) (row self)), after_save self s)
  | errors => (Raise (DjangoValidationError (MessageDict errors)), s)
  end.
Proof.
  unfold Transaction_save. unfold mbind, DB_bind.
  rewrite Model_full_clean_eq.
  destruct (clean_errors self s ++ unique_errors self s); [apply Model_save_eq | done].
Qed.

Lemma rollback_Transaction_save self : rollback_on_error (Transaction_save self).
Proof.
  apply rollback_bind_readonly; [apply readonly_Model_full_clean |].
  intros _ s e s' H. destruct (infallible_Model_save self s) as (a & s1 & Hs). congruence.
Qed.

(** ** The serializer's validation in closed form *)

Lemma validate_amount_cases (value : AmountValue) :
  (∃ d, validate_amount value = Ok d ∧ -18 ≤ Decimal.exponent d)
  ∨ validate_amount value = Raise (SerializerValidationError (Message InvalidAmountFormat))
  ∨ validate_amount value = Raise (SerializerValidationError (Message PrecisionExceeded)).
Proof.
  unfold validate_amount.
  destruct value as [d|[d|]]; [| | by right; left];
    destruct (Decimal.exponent d <? -18) eqn:He;
    first [ by right; right | left; exists d; split; [done | lia] ].
Qed.

Lemma validate_amount_decimal d :
  validate_amount (DecimalValue d) =
  if Decimal.exponent d <? -18
  then Raise (SerializerValidationError (Message PrecisionExceeded))
  else Ok d.
Proof. done. Qed.

Lemma is_valid_create_cases data s :
  (∃ d, is_valid_create data s
        = (Ok (mkValidatedData (data_wallet data) (data_txid data) d), s) ∧
        is_Some (wallets s !! data_wallet data) ∧
        txid_taken (data_txid data) None (transactions s) = false ∧
        validate_amount (data_amount data) = Ok d ∧
        create_field_errors data s = [])
  ∨ (is_valid_create data s
     = (Raise (SerializerValidationError (MessageDict (create_field_errors data s))), s) ∧
     create_field_errors data s ≠ []).
Proof.
  unfold is_valid_create, create_field_errors, wallet_field_errors,
    txid_field_errors, amount_field_errors, run_field, wallet_field,
    validate_txid, Transaction_objects_filter_txid_exists, Wallet_objects_get.
  unfold_db. simpl.
  destruct (wallets s !! data_wallet data) as [w|];
    destruct (txid_taken (data_txid data) None (transactions s));
    destruct (validate_amount_cases (data_amount data)) as [(d & -> & _)|[-> | ->]];
    simpl; first [ by right | left; exists d; eauto 10 ].
Qed.

Lemma readonly_is_valid_create data : readonly (is_valid_create data).
Proof.
  intros s. by destruct (is_valid_create_cases data s) as [(d & -> & _)|[-> _]].
Qed.

(** The balance validator is not among the field validators. *)
Lemma create_field_errors_not_balance data s :
  ("amount", NegativeBalance) ∉ create_field_errors data s.
Proof.
  unfold create_field_errors, wallet_field_errors, txid_field_errors,
    amount_field_errors.
  destruct (wallets s !! data_wallet data);
    destruct (txid_taken _ _ _);
    destruct (validate_amount_cases (data_amount data)) as [(d & -> & _)|[-> | ->]];
    simpl; intros H;
    repeat (apply elem_of_cons in H as [[=]|H]); by apply elem_of_nil in H.
Qed.

(** ** [TransactionViewSet.create] in closed form *)

Lemma TransactionSerializer_create_eq data d s :
  TransactionSerializer_create (mkValidatedData (data_wallet data) (data_txid data) d) s
  = Transaction_save (new_instance data d) s.
Proof.
  unfold TransactionSerializer_create. simpl. fold (new_instance data d).
  unfold mbind, DB_bind at 1.
  rewrite Model_full_clean_eq, Transaction_save_eq.
  by destruct (clean_errors _ s ++ unique_errors _ s).
Qed.

Lemma perform_create_eq data d s :
  TransactionViewSet.perform_create
    (mkValidatedData (data_wallet data) (data_txid data) d) s
  = match clean_errors (new_instance data d) s ++ unique_errors (new_instance data d) s with
    | [] => (Ok (mkInstance (Some (next_pk (transactions s))) (row (new_instance data d))),
             after_save (new_instance data d) s)
    | errors => (Raise (SerializerValidationError (MessageDict errors)), s)
    end.
Proof.
  unfold TransactionViewSet.perform_create. unfold atomic, try_except.
  rewrite TransactionSerializer_create_eq, Transaction_save_eq.
  by destruct (clean_errors _ s ++ unique_errors _ s).
Qed.

(** The outcomes of a create request: rejected by the field validators,
    rejected by the model validation, or committed. *)
Lemma create_cases data s :
  (TransactionViewSet.create data s
   = (Raise (SerializerValidationError (MessageDict (create_field_errors data s))), s) ∧
   create_field_errors data s ≠ [])
  ∨ (∃ d w, validate_amount (data_amount data) = Ok d ∧
       wallets s !! data_wallet data = Some w ∧
       txid_taken (data_txid data) None (transactions s) = false ∧
       create_field_errors data s = [] ∧
       ((balance w + Decimal.to_units d < 0 ∧
         TransactionViewSet.create data s
         = (Raise (SerializerValidationError (MessageDict [("amount", NegativeBalance)])), s))
        ∨ (0 ≤ balance w + Decimal.to_units d ∧
           TransactionViewSet.create data s
           = (Ok (mkInstance (Some (next_pk (transactions s))) (row (new_instance data d))),
              {| wallets := alter (set_balance (λ b, b + Decimal.to_units d))
                              (data_wallet data) (wallets s);
                 transactions := <[next_pk (transactions s) := row (new_instance data d)]>
                                   (transactions s) |})))).
Proof.
  unfold TransactionViewSet.create. unfold mbind, DB_bind.
  destruct (is_valid_create_cases data s) as [(d & -> & [w Hw] & Ht & Hd & He)|[-> Hne]];
    [right | by left].
  exists d, w. repeat (split; [done |]).
  rewrite perform_create_eq.
  unfold clean_errors, unique_errors, clean_outcome. simpl. rewrite Hw, Ht. simpl.
  destruct (balance w + Decimal.to_units d <? 0) eqn:Hb; simpl.
  - left. split; [lia | done].
  - right. split; [lia | done].
Qed.

(** ** [Transaction.delete] and [TransactionViewSet.destroy] in closed form *)

Lemma Transaction_delete_eq self s :
  Transaction_delete self s =
  match wallets s !! wallet (row self) with
  | None => (Raise WalletDoesNotExist, s)
  | Some w =>
      if balance w - amount (row self) <? 0
      then (Raise (DjangoValidationError negative_balance_on_delete), s)
      else match pk self with
           | None => (Raise ValueError, s)
           | Some k => (Ok tt, after_delete k (row self) s)
           end
  end.
Proof.
  unfold Transaction_delete, Model_delete, Wallet_objects_get,
    update_wallet_balance_on_transaction_delete, Wallet_objects_filter_update,
    remove_transaction, after_delete, negative_balance_on_delete.
  unfold_db.
  destruct (wallets s !! wallet (row self)) as [w|]; [| done].
  rewrite sub_negative.
  destruct (balance w - amount (row self) <? 0); [done |].
  by destruct (pk self).
Qed.

Lemma destroy_eq k s :
  TransactionViewSet.destroy k s =
  match transactions s !! k with
  | None => (Raise Http404, s)
  | Some t =>
      match wallets s !! wallet t with
      | None => (Raise WalletDoesNotExist, s)
      | Some w =>
          if balance w - amount t <? 0
          then (Raise (SerializerValidationError negative_balance_on_delete), s)
          else (Ok tt, after_delete k t s)
      end
  end.
Proof.
  unfold TransactionViewSet.destroy, TransactionViewSet.get_object,
    TransactionViewSet.perform_destroy, Transaction_objects_get.
  unfold mbind, DB_bind, try_except, atomic, mret, DB_ret.
  destruct (transactions s !! k) as [t|]; [| done].
  rewrite Transaction_delete_eq. simpl.
  destruct (wallets s !! wallet t) as [w|]; [| done].
  by destruct (balance w - amount t <? 0).
Qed.

(** ** The serializer's amount update in closed form *)

Lemma update_transaction_amount_eq k v s :
  update_transaction_amount k v s =
  match transactions s !! k with
  | None => (Raise Http404, s)
  | Some t =>
      match validate_amount v with
      | Raise e =>
          (Raise (SerializerValidationError (MessageDict (amount_field_errors v))), s)
      | Ok d =>
          match clean_errors (edited k t d) s ++ unique_errors (edited k t d) s with
          | [] => (Ok (edited k t d),
                   {| wallets := wallets s;
                      transactions := <[k := row (edited k t d)]> (transactions s) |})
          | errors => (Raise (DjangoValidationError (MessageDict errors)), s)
          end
      end
  end.
Proof.
  unfold update_transaction_amount, TransactionViewSet.get_object,
    Transaction_objects_get, is_valid_update, run_optional_field, run_field,
    amount_field_errors.
  unfold mbind, DB_bind, try_except, mret, DB_ret, lift, raise. simpl.
  destruct (transactions s !! k) as [t|] eqn:Hk; [| done].
  destruct (validate_amount_cases v) as [(d & -> & _)|[-> | ->]]; [| done | done].
  unfold TransactionSerializer_update. simpl. fold (edited k t d).
  unfold mbind, DB_bind.
  rewrite Model_full_clean_eq, Transaction_save_eq.
  destruct (clean_errors _ s ++ unique_errors _ s); [| done].
  unfold after_save, save_creates, save_key. simpl.
  by rewrite Hk, bool_decide_eq_false_2.
Qed.

(** ** Wallet requests in closed form *)

Lemma Wallet_save_eq self s :
  Wallet_save self s =
  (Ok (mkInstance (Some (default (next_pk (wallets s)) (pk self))) (row self)),
   {| wallets := <[default (next_pk (wallets s)) (pk self) := row self]> (wallets s);
      transactions := transactions s |}).
Proof. done. Qed.

Lemma wallet_create_eq l s :
  WalletViewSet.create l s =
  if label_taken l None (wallets s)
  then (Raise (SerializerValidationError (MessageDict [("label", UniqueViolation)])), s)
  else (Ok (mkInstance (Some (next_pk (wallets s))) {| label := l; balance := 0 |}),
        {| wallets := <[next_pk (wallets s) := {| label := l; balance := 0 |}]> (wallets s);
           transactions := transactions s |}).
Proof.
  unfold WalletViewSet.create, WalletViewSet.validate_label,
    WalletViewSet.perform_create.
  unfold_db. simpl. by destruct (label_taken l None (wallets s)).
Qed.

Lemma wallet_partial_update_eq k l s :
  WalletViewSet.partial_update k l s =
  match wallets s !! k with
  | None => (Raise Http404, s)
  | Some w =>
      if label_taken l (Some k) (wallets s)
      then (Raise (SerializerValidationError (MessageDict [("label", UniqueViolation)])), s)
      else (Ok (mkInstance (Some k) {| label := l; balance := balance w |}),
            {| wallets := <[k := {| label := l; balance := balance w |}]> (wallets s);
               transactions := transactions s |})
  end.
Proof.
  unfold WalletViewSet.partial_update, WalletViewSet.get_object,
    WalletViewSet.validate_label, WalletViewSet.perform_update, Wallet_objects_get.
  unfold_db. simpl.
  destruct (wallets s !! k) as [w|]; [| done]. simpl.
  by destruct (label_taken l (Some k) (wallets s)).
Qed.

Lemma post_delete_eq instance s :
  update_wallet_balance_on_transaction_delete instance s =
  (Ok tt, {| wallets := alter (set_balance (λ b, b - amount (row instance)))
                          (wallet (row instance)) (wallets s);
             transactions := transactions s |}).
Proof. done. Qed.

(** The [post_delete] signals of a cascade touch one wallet only. *)
Lemma cascade_signals k (related : list (Z * Transaction)) s :
  Forall (λ kt, wallet kt.2 = k) related →
  ∃ s', send_post_delete related s = (Ok tt, s') ∧
        transactions s' = transactions s ∧
        delete k (wallets s') = delete k (wallets s).
Proof.
  intros Hall. revert s. induction Hall as [|[j t] l Ht _ IH]; intros s.
  - by exists s.
  - unfold send_post_delete. cbn [foldr fst snd] in *.
    fold (send_post_delete l). unfold mbind at 1, DB_bind at 1.
    rewrite post_delete_eq. cbn [row].
    destruct (IH {| wallets := alter (set_balance (λ b, b - amount t)) (wallet t) (wallets s);
                    transactions := transactions s |}) as (s' & -> & Htx & Hw).
    exists s'. split; [done |]. split; [done |].
    simpl in Hw. by rewrite Hw, Ht, delete_alter_eq.
Qed.

Lemma Wallet_delete_eq k w s :
  Wallet_delete (mkInstance (Some k) w) s = (Ok tt, after_wallet_delete k s).
Proof.
  unfold Wallet_delete. simpl.
  unfold mbind, DB_bind, atomic, gets, modify. simpl.
  destruct (cascade_signals k (map_to_list (transactions_of k (transactions s)))
              {| wallets := wallets s;
                 transactions := filter (λ kt, wallet kt.2 ≠ k) (transactions s) |})
    as (s' & -> & Htx & Hw).
  - apply Forall_forall. intros [j t] Hjt.
    apply elem_of_map_to_list in Hjt.
    unfold transactions_of in Hjt. by apply map_lookup_filter_Some in Hjt as [_ ?].
  - simpl in *. unfold after_wallet_delete. by rewrite Htx, Hw.
Qed.

Lemma wallet_destroy_eq k s :
  WalletViewSet.destroy k s =
  match wallets s !! k with
  | None => (Raise Http404, s)
  | Some _ => (Ok tt, after_wallet_delete k s)
  end.
Proof.
  unfold WalletViewSet.destroy, WalletViewSet.get_object,
    WalletViewSet.perform_destroy, Wallet_objects_get.
  unfold mbind, DB_bind, try_except, atomic, mret, DB_ret.
  destruct (wallets s !! k) as [w|]; [| done].
  by rewrite Wallet_delete_eq.
Qed.

(** ** Every request either commits or leaves the store as it was *)

Lemma dispatch_patch_transaction k data s :
  dispatch (PatchTransaction k data) s = (Raise MethodNotAllowed, s).
Proof. done. Qed.

Lemma rollback_create data : rollback_on_error (TransactionViewSet.create data).
Proof.
  intros s e s' H.
  destruct (create_cases data s) as [[Hc _]|(d & w & _ & _ & _ & _ & [[_ Hc]|[_ Hc]])];
    rewrite Hc in H; by simplify_eq.
Qed.

Lemma rollback_destroy k : rollback_on_error (TransactionViewSet.destroy k).
Proof.
  intros s e s'. rewrite destroy_eq.
  repeat case_match; by intros [= <- <-].
Qed.

Lemma rollback_update_transaction_amount k v :
  rollback_on_error (update_transaction_amount k v).
Proof.
  intros s e s'. rewrite update_transaction_amount_eq.
  repeat case_match; by intros [= <- <-].
Qed.

Lemma rollback_dispatch r : rollback_on_error (dispatch r).
Proof.
  intros s e s'. destruct r as [data|k data|k|l|k l|k]; unfold dispatch; simpl.
  - unfold mbind, DB_bind.
    destruct (TransactionViewSet.create data s) as [[i|e'] s1] eqn:Hc; [done |].
    intros [= <- <-]. by eapply rollback_create.
  - by intros [= <- <-].
  - apply rollback_destroy.
  - unfold mbind, DB_bind, mret, DB_ret. rewrite wallet_create_eq.
    destruct (label_taken l None (wallets s)); intros ?; by simplify_eq.
  - unfold mbind, DB_bind, mret, DB_ret. rewrite wallet_partial_update_eq.
    repeat case_match; intros ?; by simplify_eq.
  - rewrite wallet_destroy_eq. destruct (wallets s !! k); intros ?; by simplify_eq.
Qed.

(** ** Non-negative balances are preserved *)

Lemma nonneg_alter (f : Z → Z) k s s' :
  balances_nonneg s →
  wallets s' = alter (set_balance f) k (wallets s) →
  (∀ w, wallets s !! k = Some w → 0 ≤ f (balance w)) →
  balances_nonneg s'.
Proof.
  intros Hs Heq Hf j w'. rewrite Heq, lookup_alter.
  case_decide as Hj; [subst j | by apply Hs].
  destruct (wallets s !! k) as [w|] eqn:Hw; simpl; [| done].
  intros [= <-]. simpl. by apply Hf.
Qed.

Lemma nonneg_insert k w s s' :
  balances_nonneg s →
  wallets s' = <[k := w]> (wallets s) →
  0 ≤ balance w →
  balances_nonneg s'.
Proof.
  intros Hs Heq Hw j w'. rewrite Heq, lookup_insert.
  case_decide; [by intros [= <-] | by apply Hs].
Qed.

Lemma nonneg_delete k s :
  balances_nonneg s → balances_nonneg (after_wallet_delete k s).
Proof.
  intros Hs j w'. simpl. rewrite lookup_delete.
  case_decide; [done | by apply Hs].
Qed.

Lemma nonneg_Transaction_save self s :
  balances_nonneg s → balances_nonneg (Transaction_save self s).2.
Proof.
  intros Hs.
  destruct (Model_full_clean_cases self s)
    as [(_ & Hclean & _)|(errors & _ & He & Hne)];
    rewrite Transaction_save_eq.
  - apply clean_errors_nil in Hclean as Hce.
    destruct (clean_errors self s ++ unique_errors self s) eqn:Herr; [| done].
    cbn [snd]. unfold after_save.
    destruct (save_creates self s) eqn:Hcr; [| done].
    eapply nonneg_alter; [done | done |]. intros w Hw.
    unfold clean_outcome in Hclean. rewrite Hw in Hclean.
    destruct (not_pk (pk self)) eqn:Hpk.
    + destruct (balance w + amount (row self) <? 0) eqn:Hb; [done | lia].
    + unfold save_creates in Hcr.
      destruct (pk self) as [k|]; [| done]. simpl in Hclean.
      apply bool_decide_eq_true in Hcr. by rewrite Hcr in Hclean.
  - rewrite <- He. by destruct errors.
Qed.

Lemma nonneg_Transaction_delete self s :
  balances_nonneg s → balances_nonneg (Transaction_delete self s).2.
Proof.
  intros Hs. rewrite Transaction_delete_eq.
  destruct (wallets s !! wallet (row self)) as [w|] eqn:Hw; [| done].
  destruct (balance w - amount (row self) <? 0) eqn:Hb; [done |].
  destruct (pk self) as [k|]; [| done].
  eapply nonneg_alter; [done | done |]. intros w' Hw'. simplify_eq. lia.
Qed.

Lemma nonneg_create data s :
  balances_nonneg s → balances_nonneg (TransactionViewSet.create data s).2.
Proof.
  intros Hs.
  destruct (create_cases data s)
    as [[-> _]|(d & w & _ & Hw & _ & _ & [[_ ->]|[Hb ->]])]; [done | done |].
  eapply nonneg_alter; [done | done |]. intros w' Hw'. simplify_eq. lia.
Qed.

Lemma nonneg_destroy k s :
  balances_nonneg s → balances_nonneg (TransactionViewSet.destroy k s).2.
Proof.
  intros Hs. rewrite destroy_eq.
  destruct (transactions s !! k) as [t|]; [| done].
  destruct (wallets s !! wallet t) as [w|] eqn:Hw; [| done].
  destruct (balance w - amount t <? 0) eqn:Hb; [done |].
  eapply nonneg_alter; [done | done |]. intros w' Hw'. simplify_eq. lia.
Qed.

Lemma nonneg_update_transaction_amount k v s :
  balances_nonneg s → balances_nonneg (update_transaction_amount k v s).2.
Proof.
  intros Hs. rewrite update_transaction_amount_eq.
  repeat case_match; done.
Qed.

Lemma nonneg_dispatch r s :
  balances_nonneg s → balances_nonneg (dispatch r s).2.
Proof.
  intros Hs. destruct r as [data|k data|k|l|k l|k]; unfold dispatch; simpl.
  - unfold mbind, DB_bind, mret, DB_ret.
    pose proof (nonneg_create data s Hs) as Hc.
    by destruct (TransactionViewSet.create data s) as [[i|e] s1].
  - done.
  - by apply nonneg_destroy.
  - unfold mbind, DB_bind, mret, DB_ret. rewrite wallet_create_eq.
    destruct (label_taken l None (wallets s)); [done |].
    by eapply nonneg_insert.
  - unfold mbind, DB_bind, mret, DB_ret. rewrite wallet_partial_update_eq.
    destruct (wallets s !! k) as [w|] eqn:Hw; [| done].
    destruct (label_taken l (Some k) (wallets s)); [done |].
    eapply nonneg_insert; [done | done |]. simpl. by apply (Hs k).
  - rewrite wallet_destroy_eq.
    destruct (wallets s !! k); [| done]. by apply nonneg_delete.
Qed.

(** ** The balance/sum invariant under create and delete *)

Lemma balance_is_sum_create data s :
  balance_is_sum s → balance_is_sum (TransactionViewSet.create data s).2.
Proof.
  intros Hs.
  destruct (create_cases data s)
    as [[-> _]|(d & w & _ & Hw & _ & _ & [[_ ->]|[Hb ->]])]; [done | done |].
  intros j w'. cbn [snd wallets transactions].
  rewrite transaction_sum_insert by apply next_pk_fresh.
  unfold contribution, new_instance. cbn [row wallet amount].
  rewrite lookup_alter.
  case_decide as Hj.
  - subst j. rewrite Hw. intros [= <-]. rewrite ?decide_True by done.
    simpl. rewrite (Hs _ _ Hw). lia.
  - rewrite ?decide_False by done. intros Hj'. rewrite (Hs _ _ Hj'). lia.
Qed.

Lemma balance_is_sum_destroy k s :
  balance_is_sum s → balance_is_sum (TransactionViewSet.destroy k s).2.
Proof.
  intros Hs. rewrite destroy_eq.
  destruct (transactions s !! k) as [t|] eqn:Ht; [| done].
  destruct (wallets s !! wallet t) as [w|] eqn:Hw; [| done].
  destruct (balance w - amount t <? 0) eqn:Hb; [done |].
  intros j w'. cbn [snd after_delete wallets transactions].
  pose proof (transaction_sum_delete j k t (transactions s) Ht) as Hsum.
  unfold contribution in Hsum.
  rewrite lookup_alter.
  case_decide as Hj.
  - subst j. rewrite Hw. intros [= <-]. rewrite ?decide_True in Hsum by done.
    simpl. rewrite (Hs _ _ Hw). lia.
  - rewrite ?decide_False in Hsum by done. intros Hj'. rewrite (Hs _ _ Hj'). lia.
Qed.

(** ** Distinct txids *)

Lemma txid_taken_true v exclude (txs : gmap Z Transaction) :
  txid_taken v exclude txs = true ↔
  ∃ k t, txs !! k = Some t ∧ txid t = v ∧ Some k ≠ exclude.
Proof. unfold txid_taken. rewrite bool_decide_eq_true. done. Qed.

Lemma txid_taken_false v exclude (txs : gmap Z Transaction) :
  txid_taken v exclude txs = false ↔
  ∀ k t, txs !! k = Some t → Some k ≠ exclude → txid t ≠ v.
Proof.
  rewrite <- not_true_iff_false, txid_taken_true. split.
  - intros Hn k t Hk Hx Ht. apply Hn. by exists k, t.
  - intros Hall (k & t & Hk & Ht & Hx). by eapply Hall.
Qed.

Lemma txids_distinct_subseteq s s' :
  transactions s' ⊆ transactions s → txids_distinct s → txids_distinct s'.
Proof.
  intros Hsub Hs k1 k2 t1 t2 H1 H2.
  eapply Hs; by eapply lookup_weaken.
Qed.

Lemma txids_distinct_create data s :
  txids_distinct s → txids_distinct (TransactionViewSet.create data s).2.
Proof.
  intros Hs.
  destruct (create_cases data s)
    as [[-> _]|(d & w & _ & _ & Hfree & _ & [[_ ->]|[_ ->]])]; [done | done |].
  rewrite txid_taken_false in Hfree.
  intros k1 k2 t1 t2. cbn [snd transactions]. rewrite !lookup_insert.
  repeat case_decide; intros; simplify_eq; try done.
  - exfalso. eapply Hfree; [done | done |]. by symmetry.
  - exfalso. by eapply Hfree.
  - by eapply Hs.
Qed.

Lemma txids_distinct_update_transaction_amount k v s :
  txids_distinct s → txids_distinct (update_transaction_amount k v s).2.
Proof.
  intros Hs. rewrite update_transaction_amount_eq.
  destruct (transactions s !! k) as [t|] eqn:Ht; [| done].
  destruct (validate_amount v) as [d|e]; [| done].
  destruct (clean_errors _ s ++ unique_errors _ s); [| done].
  intros k1 k2 t1 t2. cbn [snd transactions edited row]. rewrite !lookup_insert.
  repeat case_decide; intros; simplify_eq; try done; eapply Hs; done.
Qed.

Lemma txids_distinct_dispatch r s :
  txids_distinct s → txids_distinct (dispatch r s).2.
Proof.
  intros Hs. destruct r as [data|k data|k|l|k l|k]; unfold dispatch; simpl.
  - unfold mbind, DB_bind, mret, DB_ret.
    pose proof (txids_distinct_create data s Hs) as Hc.
    by destruct (TransactionViewSet.create data s) as [[i|e] s1].
  - done.
  - rewrite destroy_eq. repeat case_match; try done.
    eapply txids_distinct_subseteq; [| done]. apply delete_subseteq.
  - unfold mbind, DB_bind, mret, DB_ret. rewrite wallet_create_eq.
    destruct (label_taken l None (wallets s)); exact Hs.
  - unfold mbind, DB_bind, mret, DB_ret. rewrite wallet_partial_update_eq.
    destruct (wallets s !! k) as [w|]; [| exact Hs].
    destruct (label_taken l (Some k) (wallets s)); exact Hs.
  - rewrite wallet_destroy_eq. destruct (wallets s !! k); [| done].
    eapply txids_distinct_subseteq; [| done]. apply map_filter_subseteq.
Qed.

(** ** What the API preserves *)

Lemma is_Some_alter (f : Wallet → Wallet) k j (ws : gmap Z Wallet) :
  is_Some (ws !! j) → is_Some (alter f k ws !! j).
Proof.
  intros Hj. rewrite lookup_alter. case_decide; [subst; by apply fmap_is_Some | done].
Qed.

Lemma foreign_keys_dispatch r s :
  foreign_keys_valid s → foreign_keys_valid (dispatch r s).2.
Proof.
  intros Hs. destruct r as [data|k data|k|l|k l|k]; unfold dispatch; simpl.
  - unfold mbind, DB_bind, mret, DB_ret.
    destruct (create_cases data s)
      as [[-> _]|(d & w & _ & Hw & _ & _ & [[_ ->]|[_ ->]])]; [done | done |].
    intros j t. cbn [snd wallets transactions]. rewrite lookup_insert.
    case_decide.
    + intros [= <-]. cbn [new_instance row wallet].
      rewrite lookup_alter_eq, Hw. by eexists.
    + intros Hj. apply is_Some_alter. by eapply Hs.
  - done.
  - rewrite destroy_eq.
    destruct (transactions s !! k) as [t|]; [| done].
    destruct (wallets s !! wallet t) as [w|]; [| done].
    destruct (balance w - amount t <? 0); [done |].
    intros j t'. cbn [snd after_delete wallets transactions].
    intros [_ Hj]%lookup_delete_Some. apply is_Some_alter. by eapply Hs.
  - unfold mbind, DB_bind, mret, DB_ret. rewrite wallet_create_eq.
    destruct (label_taken l None (wallets s)); [done |].
    intros j t Hj. cbn [snd wallets transactions] in *.
    apply lookup_insert_is_Some'. right. by eapply Hs.
  - unfold mbind, DB_bind, mret, DB_ret. rewrite wallet_partial_update_eq.
    destruct (wallets s !! k) as [w|]; [| done].
    destruct (label_taken l (Some k) (wallets s)); [done |].
    intros j t Hj. cbn [snd wallets transactions] in *.
    apply lookup_insert_is_Some'. right. by eapply Hs.
  - rewrite wallet_destroy_eq. destruct (wallets s !! k); [| done].
    intros j t. cbn [snd after_wallet_delete wallets transactions].
    intros [Hj Hne]%map_lookup_filter_Some. simpl in Hne.
    rewrite lookup_delete_ne by done. by eapply Hs.
Qed.

Lemma transaction_sum_unreferenced w (txs : gmap Z Transaction) :
  (∀ k t, txs !! k = Some t → wallet t ≠ w) → transaction_sum w txs = 0.
Proof.
  unfold transaction_sum.
  apply (map_fold_weak_ind
           (λ r (m : gmap Z Transaction),
              (∀ k t, m !! k = Some t → wallet t ≠ w) → r = 0)); [done |].
  intros i x m r Hi IH Hall.
  rewrite decide_False by (eapply Hall; apply lookup_insert_eq).
  apply IH. intros k t Hk. apply (Hall k).
  rewrite lookup_insert_ne; [done | congruence].
Qed.

Lemma transaction_sum_cascade j k (txs : gmap Z Transaction) :
  j ≠ k →
  transaction_sum j (filter (λ kt, wallet kt.2 ≠ k) txs) = transaction_sum j txs.
Proof.
  intros Hjk. induction txs as [|i x m Hi IH] using map_ind.
  - by rewrite map_filter_empty.
  - rewrite map_filter_insert, (transaction_sum_insert j i x m Hi).
    case_decide as Hx; simpl in Hx.
    + rewrite transaction_sum_insert, IH; [done |].
      apply map_lookup_filter_None. by left.
    + rewrite delete_id, IH by done. unfold contribution.
      rewrite decide_False; [done |]. congruence.
Qed.

Lemma balance_is_sum_dispatch r s :
  foreign_keys_valid s → balance_is_sum s → balance_is_sum (dispatch r s).2.
Proof.
  intros Hfk Hs. destruct r as [data|k data|k|l|k l|k]; unfold dispatch; simpl.
  - unfold mbind, DB_bind, mret, DB_ret.
    pose proof (balance_is_sum_create data s Hs) as Hc.
    by destruct (TransactionViewSet.create data s) as [[i|e] s1].
  - done.
  - by apply balance_is_sum_destroy.
  - unfold mbind, DB_bind, mret, DB_ret. rewrite wallet_create_eq.
    destruct (label_taken l None (wallets s)); [done |].
    intros j w. cbn [snd wallets transactions]. rewrite lookup_insert.
    case_decide; [| by apply Hs]. subst j. intros [= <-]. simpl.
    symmetry. apply transaction_sum_unreferenced. intros k t Hk Hw.
    destruct (Hfk k t Hk) as [w' Hw']. rewrite Hw, next_pk_fresh in Hw'. done.
  - unfold mbind, DB_bind, mret, DB_ret. rewrite wallet_partial_update_eq.
    destruct (wallets s !! k) as [w|] eqn:Hw; [| done].
    destruct (label_taken l (Some k) (wallets s)); [done |].
    intros j w'. cbn [snd wallets transactions]. rewrite lookup_insert.
    case_decide; [| by apply Hs]. subst j. intros [= <-]. simpl. by apply Hs.
  - rewrite wallet_destroy_eq. destruct (wallets s !! k) as [w0|]; [| done].
    intros j w. cbn [snd after_wallet_delete wallets transactions].
    intros [Hne Hj]%lookup_delete_Some.
    rewrite transaction_sum_cascade by done. by apply Hs.
Qed.

(** From the empty store, requests to the API lead only to stores in
    which every balance is the sum of the wallet's transactions and is
    not negative, txids are distinct and foreign keys are valid. *)
Lemma reachable_invariants s :
  reachable s →
  balance_is_sum s ∧ balances_nonneg s ∧ txids_distinct s ∧ foreign_keys_valid s.
Proof.
  induction 1 as [|r s _ (Hsum & Hnn & Htx & Hfk)].
  - repeat split; intros ? **; simpl in *; by simplify_map_eq.
  - repeat split.
    + by apply balance_is_sum_dispatch.
    + by apply nonneg_dispatch.
    + by apply txids_distinct_dispatch.
    + by apply foreign_keys_dispatch.
Qed.

(** ** The running example *)

Lemma one_deposit_balance_is_sum : balance_is_sum one_deposit.
Proof.
  intros k w. unfold one_deposit. cbn [wallets transactions].
  intros [<- <-]%lookup_singleton_Some. by vm_compute.
Qed.

(** The example is what the API holds after a wallet was created and 50
    deposited. *)
Lemma one_deposit_reachable : reachable one_deposit.
Proof.
  assert (one_deposit
          = (dispatch (PostTransaction
                         (mkTransactionData 1 "deposit-tx-1" (DecimalValue fifty)))
               (dispatch (PostWallet "Test Wallet") empty_store).2).2) as ->
    by (vm_compute; reflexivity).
  do 2 apply reachable_dispatch. apply reachable_empty.
Qed.

(** * The claims *)

(** C1: every wallet's stored balance equals the sum of the amounts of
    the transactions referencing it after every committed create, amount
    update or delete.  Creates and deletes keep the invariant
    ([balance_is_sum_create], [balance_is_sum_destroy]), and so does
    every request to the API ([reachable_invariants]); the amount update
    does not: [post_save] returns at once for a row that was not created.
    On a store that satisfies the invariant, editing the deposit of 50 to
    70 through the serializer commits, the wallet still shows 50 and its
    transactions sum to 70. *)
Theorem C1_amount_update_breaks_balance_sum :
  reachable one_deposit ∧
  balance_is_sum one_deposit ∧
  ∃ i s', update_transaction_amount 1 (DecimalValue seventy) one_deposit = (Ok i, s') ∧
          wallets s' !! 1 = Some {| label := "Test Wallet"; balance := whole 50 |} ∧
          transaction_sum 1 (transactions s') = whole 70 ∧
          ¬ balance_is_sum s'.
Proof.
  split; [apply one_deposit_reachable |].
  split; [apply one_deposit_balance_is_sum |].
  eexists _, _. split; [by vm_compute |].
  split; [by vm_compute |]. split; [by vm_compute |].
  intros Hsum.
  specialize (Hsum 1 {| label := "Test Wallet"; balance := whole 50 |} eq_refl).
  by vm_compute in Hsum.
Qed.

(** C2: no operation leaves a wallet balance below zero: if every
    balance is non-negative before, it is so after any request to the
    API, any amount edit through the serializer and any direct call of
    [Transaction.save] or [Transaction.delete], whether the call commits
    or raises. *)
Theorem C2_balances_never_negative s :
  balances_nonneg s →
  (∀ r, balances_nonneg (dispatch r s).2) ∧
  (∀ k v, balances_nonneg (update_transaction_amount k v s).2) ∧
  (∀ self, balances_nonneg (Transaction_save self s).2) ∧
  (∀ self, balances_nonneg (Transaction_delete self s).2).
Proof.
  intros Hs. repeat split; intros.
  - by apply nonneg_dispatch.
  - by apply nonneg_update_transaction_amount.
  - by apply nonneg_Transaction_save.
  - by apply nonneg_Transaction_delete.
Qed.

Lemma C2_witness :
  balances_nonneg one_deposit ∧
  balances_nonneg
    (dispatch (PostTransaction (mkTransactionData 1 "withdrawal" (DecimalValue minus_sixty)))
       one_deposit).2.
Proof.
  assert (balances_nonneg one_deposit) as H.
  { apply (bool_decide_unpack _). vm_compute. exact I. }
  split; [exact H |]. apply (proj1 (C2_balances_never_negative one_deposit H)).
Defined.

(** C3, as stated, fails: the new amount 70 for the deposit of 50 passes
    the precision guard and the balance validation, yet a PATCH request
    is answered 405 without any change, and the serializer's update
    stores the amount and leaves the balance at 50. *)
Lemma C3_counterexample :
  validate_amount (DecimalValue seventy) = Ok seventy ∧
  clean_outcome (edited 1 {| wallet := 1; txid := "deposit-tx-1"; amount := whole 50 |} seventy)
    one_deposit = Ok tt ∧
  dispatch (PatchTransaction 1 (mkTransactionPatch None None (Some (DecimalValue seventy))))
    one_deposit = (Raise MethodNotAllowed, one_deposit) ∧
  ¬ amount_update_moves_balance one_deposit 1 seventy.
Proof.
  split; [done |]. split; [by vm_compute |]. split; [done |].
  intros Hclaim.
  destruct (Hclaim {| wallet := 1; txid := "deposit-tx-1"; amount := whole 50 |}
              {| label := "Test Wallet"; balance := whole 50 |} eq_refl eq_refl)
    as (i & s' & w' & Hrun & _ & Hw' & Hb).
  vm_compute in Hrun. injection Hrun as <- <-.
  vm_compute in Hw'. injection Hw' as <-.
  by vm_compute in Hb.
Qed.

(** C3, amended: the API offers no amount update (PATCH is answered 405
    and changes nothing); on the serializer's update path, an edit of an
    existing transaction whose new amount passes the precision guard and
    the balance validation (the prospective balance that
    [Transaction.clean] computes from the balance, the new and the old
    amount is not negative) commits and stores the new amount in the
    transaction's row, all other rows being kept. *)
Theorem C3_amount_update_edits_record s k t w d :
  k ≠ 0 →
  transactions s !! k = Some t →
  wallets s !! wallet t = Some w →
  txids_distinct s →
  -18 ≤ Decimal.exponent d →
  0 ≤ edit_prospective_balance (balance w) (Decimal.to_units d) (amount t) →
  (∀ data, dispatch (PatchTransaction k data) s = (Raise MethodNotAllowed, s)) ∧
  ∃ s', update_transaction_amount k (DecimalValue d) s = (Ok (edited k t d), s') ∧
        transactions s' = <[k := row (edited k t d)]> (transactions s).
Proof.
  intros Hk Ht Hw Hdist Hd Hb. split; [done |].
  rewrite update_transaction_amount_eq, Ht, validate_amount_decimal.
  destruct (Decimal.exponent d <? -18) eqn:He; [lia |].
  assert (clean_errors (edited k t d) s = []) as ->.
  { apply clean_errors_nil. unfold clean_outcome. simpl.
    rewrite Hw, (proj2 (Z.eqb_neq k 0) Hk), Ht.
    destruct (_ <? 0) eqn:Hn; [lia | done]. }
  assert (unique_errors (edited k t d) s = []) as ->.
  { unfold unique_errors. cbn [edited row pk txid].
    destruct (txid_taken (txid t) (Some k) (transactions s)) eqn:Htk; [| done].
    apply txid_taken_true in Htk as (k' & t' & Hk' & Heq & Hne).
    exfalso. apply Hne. f_equal. by eapply Hdist. }
  eauto.
Qed.

Lemma C3_witness :
  ∃ s', update_transaction_amount 1 (DecimalValue seventy) one_deposit
        = (Ok (edited 1 {| wallet := 1; txid := "deposit-tx-1"; amount := whole 50 |} seventy), s') ∧
        transactions s'
        = <[1 := {| wallet := 1; txid := "deposit-tx-1"; amount := whole 70 |}]>
            (transactions one_deposit).
Proof.
  refine (proj2 (C3_amount_update_edits_record one_deposit 1
            {| wallet := 1; txid := "deposit-tx-1"; amount := whole 50 |}
            {| label := "Test Wallet"; balance := whole 50 |} seventy _ _ _ _ _ _)).
  - discriminate.
  - reflexivity.
  - reflexivity.
  - intros k1 k2 t1 t2. unfold one_deposit. cbn [transactions].
    intros [<- _]%lookup_singleton_Some [<- _]%lookup_singleton_Some _. reflexivity.
  - vm_compute. discriminate.
  - vm_compute. discriminate.
Defined.

(** C4: a create request on an existing wallet with balance [B] and
    amount [a] (precision and uniqueness guards passed) is rejected with
    the negative-balance error exactly when [B + a < 0], and commits
    otherwise; the balance validator [Transaction.clean] itself rejects a
    new transaction exactly when [B + a < 0], so it accepts a zero amount
    on every wallet whose balance is not negative, which is every wallet
    of a store the API has produced. *)
Theorem C4_create_rejected_iff_balance_negative s data w d :
  wallets s !! data_wallet data = Some w →
  validate_amount (data_amount data) = Ok d →
  txid_taken (data_txid data) None (transactions s) = false →
  (TransactionViewSet.create data s
   = (Raise (SerializerValidationError (MessageDict [("amount", NegativeBalance)])), s)
   ↔ balance w + Decimal.to_units d < 0) ∧
  (0 ≤ balance w + Decimal.to_units d →
   ∃ i s', TransactionViewSet.create data s = (Ok i, s')) ∧
  (∀ t a,
     Transaction_clean (mkInstance None {| wallet := data_wallet data; txid := t; amount := a |}) s
     = (if balance w + a <? 0 then Raise negative_balance_error else Ok tt, s)) ∧
  (∀ t, 0 ≤ balance w ∨ reachable s →
     Transaction_clean (mkInstance None {| wallet := data_wallet data; txid := t; amount := 0 |}) s
     = (Ok tt, s)).
Proof.
  intros Hw Hd Ht.
  assert (∀ t a,
     Transaction_clean (mkInstance None {| wallet := data_wallet data; txid := t; amount := a |}) s
     = (if balance w + a <? 0 then Raise negative_balance_error else Ok tt, s)) as Hclean.
  { intros t a. rewrite Transaction_clean_eq. unfold clean_outcome. simpl. by rewrite Hw. }
  destruct (create_cases data s)
    as [[_ Hne]|(d' & w' & Hd' & Hw' & _ & _ & Hcases)].
  { exfalso. apply Hne. unfold create_field_errors, wallet_field_errors,
      txid_field_errors, amount_field_errors. by rewrite Hw, Ht, Hd. }
  assert (d' = d) as -> by congruence. assert (w' = w) as -> by congruence.
  repeat split.
  - intros Hc. destruct Hcases as [[? _]|[_ Hok]]; [done |]. rewrite Hok in Hc. done.
  - intros Hneg. destruct Hcases as [[_ ?]|[? _]]; [done | lia].
  - intros Hpos. destruct Hcases as [[? _]|[_ ->]]; [lia | eauto].
  - done.
  - intros t Hb. rewrite Hclean.
    assert (0 ≤ balance w).
    { destruct Hb as [?|Hr]; [done |].
      by eapply (proj1 (proj2 (reachable_invariants s Hr))). }
    destruct (balance w + 0 <? 0) eqn:Hn; [lia | done].
Qed.

Lemma C4_witness :
  TransactionViewSet.create (mkTransactionData 1 "overdraft-tx-1" (DecimalValue minus_sixty))
    one_deposit
  = (Raise (SerializerValidationError (MessageDict [("amount", NegativeBalance)])), one_deposit).
Proof.
  refine (proj2 (proj1 (C4_create_rejected_iff_balance_negative one_deposit
            (mkTransactionData 1 "overdraft-tx-1" (DecimalValue minus_sixty))
            {| label := "Test Wallet"; balance := whole 50 |} minus_sixty _ _ _)) _).
  - reflexivity.
  - reflexivity.
  - vm_compute. reflexivity.
  - vm_compute. reflexivity.
Defined.

(** C5: deleting a transaction of amount [a] from a wallet with balance
    [B] fails exactly when [B - a < 0], with the reason filed under
    [non_field_errors] and nothing changed; otherwise the row is removed
    and the wallet's balance becomes [B - a], other wallets being kept. *)
Theorem C5_delete_rejected_iff_balance_negative s k t w :
  transactions s !! k = Some t →
  wallets s !! wallet t = Some w →
  ((∃ e, (TransactionViewSet.destroy k s).1 = Raise e) ↔ balance w - amount t < 0) ∧
  (balance w - amount t < 0 →
   TransactionViewSet.destroy k s
   = (Raise (SerializerValidationError
               (MessageDict [("non_field_errors", NegativeBalanceOnDelete)])), s)) ∧
  (0 ≤ balance w - amount t →
   ∃ s', TransactionViewSet.destroy k s = (Ok tt, s') ∧
         transactions s' = delete k (transactions s) ∧
         wallets s' !! wallet t
         = Some {| label := label w; balance := balance w - amount t |} ∧
         ∀ j, j ≠ wallet t → wallets s' !! j = wallets s !! j).
Proof.
  intros Ht Hw. rewrite destroy_eq, Ht, Hw.
  destruct (balance w - amount t <? 0) eqn:Hb; repeat split; try lia; try done.
  - eauto.
  - intros [e He]. done.
  - intros _. eexists. split; [done |]. split; [done |].
    unfold after_delete. cbn [wallets]. split.
    + by rewrite lookup_alter_eq, Hw.
    + intros j Hj. by rewrite lookup_alter_ne.
Qed.

Lemma C5_witness :
  ∃ s', TransactionViewSet.destroy 1 one_deposit = (Ok tt, s') ∧
        transactions s' = delete 1 (transactions one_deposit) ∧
        wallets s' !! 1 = Some {| label := "Test Wallet"; balance := whole 50 - whole 50 |} ∧
        ∀ j, j ≠ 1 → wallets s' !! j = wallets one_deposit !! j.
Proof.
  refine (proj2 (proj2 (C5_delete_rejected_iff_balance_negative one_deposit 1
            {| wallet := 1; txid := "deposit-tx-1"; amount := whole 50 |}
            {| label := "Test Wallet"; balance := whole 50 |} _ _)) _).
  - reflexivity.
  - reflexivity.
  - vm_compute. discriminate.
Defined.

(** C6: a create, amount update or delete that fails, with whatever
    error, leaves the store exactly as it was: the same transactions and
    the same wallet balances.  This holds for the requests of the API, for
    the serializer's amount update and for direct calls of
    [Transaction.save] and [Transaction.delete]. *)
Theorem C6_failed_mutation_changes_nothing s e s' :
  (∀ data, TransactionViewSet.create data s = (Raise e, s') → s' = s) ∧
  (∀ k, TransactionViewSet.destroy k s = (Raise e, s') → s' = s) ∧
  (∀ k v, update_transaction_amount k v s = (Raise e, s') → s' = s) ∧
  (∀ r, dispatch r s = (Raise e, s') → s' = s) ∧
  (∀ self, Transaction_save self s = (Raise e, s') → s' = s) ∧
  (∀ self, Transaction_delete self s = (Raise e, s') → s' = s).
Proof.
  repeat split; intros.
  - by eapply rollback_create.
  - by eapply rollback_destroy.
  - by eapply rollback_update_transaction_amount.
  - by eapply rollback_dispatch.
  - by eapply rollback_Transaction_save.
  - by eapply (rollback_atomic (A := unit)).
Qed.

Lemma C6_witness :
  (TransactionViewSet.create
     (mkTransactionData 1 "overdraft-tx-1" (DecimalValue minus_sixty)) one_deposit).2
  = one_deposit.
Proof.
  refine (proj1 (C6_failed_mutation_changes_nothing one_deposit
            (SerializerValidationError (MessageDict [("amount", NegativeBalance)]))
            _) (mkTransactionData 1 "overdraft-tx-1" (DecimalValue minus_sixty)) _).
  vm_compute. reflexivity.
Defined.

(** ** Decimals and column values *)

Lemma signed_coefficient_of_units u :
  Decimal.signed_coefficient (Decimal.of_units u) = u.
Proof.
  unfold Decimal.signed_coefficient, Decimal.of_units. simpl.
  destruct (u <? 0) eqn:Hu; rewrite Z2N.id; lia.
Qed.

(** A decimal with at most 18 fractional digits is stored without
    rounding: the column reads back as the same number. *)
Lemma stored_exactly d :
  -18 ≤ Decimal.exponent d →
  Decimal.numerically_equal (Decimal.of_units (Decimal.to_units d)) d.
Proof.
  intros He. unfold Decimal.numerically_equal.
  rewrite signed_coefficient_of_units.
  unfold Decimal.to_units, Decimal.of_units, Decimal.decimal_places. simpl.
  rewrite Z.min_l by lia.
  by rewrite Z.sub_diag, Z.sub_opp_r, Z.pow_0_r, Z.mul_1_r.
Qed.

(** C7: an amount with more than 18 fractional digits is rejected by
    [validate_amount], a function of the amount alone, and the create
    request then fails in the field validation, whatever the store holds
    and before the balance validation runs; an amount with exactly 18
    fractional digits passes the guard, commits when the other checks
    pass, and its row holds exactly the number submitted. *)
Theorem C7_precision_guard d :
  (18 < Decimal.fractional_digits d →
   validate_amount (DecimalValue d)
   = Raise (SerializerValidationError (Message PrecisionExceeded)) ∧
   ∀ s w t, ∃ errors,
     TransactionViewSet.create (mkTransactionData w t (DecimalValue d)) s
     = (Raise (SerializerValidationError (MessageDict errors)), s) ∧
     ("amount", PrecisionExceeded) ∈ errors ∧
     ("amount", NegativeBalance) ∉ errors) ∧
  (Decimal.fractional_digits d = 18 →
   validate_amount (DecimalValue d) = Ok d ∧
   Decimal.numerically_equal (Decimal.of_units (Decimal.to_units d)) d ∧
   ∀ s w t wr,
     wallets s !! w = Some wr →
     txid_taken t None (transactions s) = false →
     0 ≤ balance wr + Decimal.to_units d →
     ∃ k s',
       TransactionViewSet.create (mkTransactionData w t (DecimalValue d)) s
       = (Ok (mkInstance (Some k) {| wallet := w; txid := t; amount := Decimal.to_units d |}), s') ∧
       transactions s' !! k
       = Some {| wallet := w; txid := t; amount := Decimal.to_units d |}).
Proof.
  unfold Decimal.fractional_digits. split; intros Hd.
  - assert (validate_amount (DecimalValue d)
            = Raise (SerializerValidationError (Message PrecisionExceeded))) as Hv.
    { rewrite validate_amount_decimal.
      destruct (Decimal.exponent d <? -18) eqn:He; [done | lia]. }
    split; [done |]. intros s w t.
    exists (create_field_errors (mkTransactionData w t (DecimalValue d)) s).
    destruct (create_cases (mkTransactionData w t (DecimalValue d)) s)
      as [[-> _]|(d' & _ & Hd' & _)]; [| simpl in Hd'; congruence].
    split; [done |]. split; [| apply create_field_errors_not_balance].
    unfold create_field_errors, amount_field_errors. simpl. rewrite Hv.
    rewrite !elem_of_app. right. right. by apply list_elem_of_singleton.
  - assert (validate_amount (DecimalValue d) = Ok d) as Hv.
    { rewrite validate_amount_decimal.
      destruct (Decimal.exponent d <? -18) eqn:He; [lia | done]. }
    split; [done |]. split; [apply stored_exactly; lia |].
    intros s w t wr Hw Ht Hb.
    destruct (create_cases (mkTransactionData w t (DecimalValue d)) s)
      as [[_ Hne]|(d' & w' & Hd' & Hw' & _ & _ & Hcases)].
    { exfalso. apply Hne. unfold create_field_errors, wallet_field_errors,
        txid_field_errors, amount_field_errors. simpl. by rewrite Hw, Ht, Hv. }
    simpl in Hd', Hw'.
    assert (d' = d) as -> by congruence. assert (w' = wr) as -> by congruence.
    destruct Hcases as [[? _]|[_ ->]]; [lia |].
    eexists _, _. split; [done |]. cbn [transactions]. apply lookup_insert_eq.
Qed.

Lemma C7_witness :
  validate_amount (DecimalValue amount_too_precise)
  = Raise (SerializerValidationError (Message PrecisionExceeded)) ∧
  validate_amount (DecimalValue amount_precise) = Ok amount_precise.
Proof.
  split.
  - refine (proj1 (proj1 (C7_precision_guard amount_too_precise) _)).
    vm_compute. reflexivity.
  - refine (proj1 (proj2 (C7_precision_guard amount_precise) _)).
    vm_compute. reflexivity.
Defined.

(** C8: a create request whose txid is already stored is rejected with
    the duplicate-txid error and changes nothing; in particular a
    committed create, sent again, is rejected; and txids stay pairwise
    distinct under every request and under the serializer's amount
    update. *)
Theorem C8_duplicate_txid_rejected s data :
  ((∃ k t, transactions s !! k = Some t ∧ txid t = data_txid data) →
   ∃ errors,
     TransactionViewSet.create data s
     = (Raise (SerializerValidationError (MessageDict errors)), s) ∧
     ("txid", DuplicateTxid) ∈ errors) ∧
  (∀ i s', TransactionViewSet.create data s = (Ok i, s') →
   ∃ errors,
     TransactionViewSet.create data s'
     = (Raise (SerializerValidationError (MessageDict errors)), s') ∧
     ("txid", DuplicateTxid) ∈ errors) ∧
  (txids_distinct s →
   txids_distinct (TransactionViewSet.create data s).2 ∧
   (∀ r, txids_distinct (dispatch r s).2) ∧
   (∀ k v, txids_distinct (update_transaction_amount k v s).2)).
Proof.
  assert (∀ s0, (∃ k t, transactions s0 !! k = Some t ∧ txid t = data_txid data) →
    ∃ errors,
      TransactionViewSet.create data s0
      = (Raise (SerializerValidationError (MessageDict errors)), s0) ∧
      ("txid", DuplicateTxid) ∈ errors) as Hdup.
  { intros s0 (k & t & Hk & Ht).
    assert (txid_taken (data_txid data) None (transactions s0) = true) as Htaken.
    { apply txid_taken_true. by exists k, t. }
    exists (create_field_errors data s0).
    destruct (create_cases data s0) as [[-> _]|(_ & _ & _ & _ & Hfree & _)];
      [| congruence].
    split; [done |].
    unfold create_field_errors, txid_field_errors. rewrite Htaken.
    rewrite !elem_of_app. right. left. by apply list_elem_of_singleton. }
  split; [apply Hdup |]. split.
  - intros i s' Hok. apply Hdup.
    destruct (create_cases data s)
      as [[Hc _]|(d & w & _ & _ & _ & _ & [[_ Hc]|[_ Hc]])];
      rewrite Hc in Hok; simplify_eq.
    eexists _, _. split; [apply lookup_insert_eq | done].
  - intros Hs. split; [by apply txids_distinct_create |]. split; intros.
    + by apply txids_distinct_dispatch.
    + by apply txids_distinct_update_transaction_amount.
Qed.

Lemma C8_witness :
  ∃ errors,
    TransactionViewSet.create
      (mkTransactionData 1 "deposit-tx-1" (DecimalValue fifty)) one_deposit
    = (Raise (SerializerValidationError (MessageDict errors)), one_deposit) ∧
    ("txid", DuplicateTxid) ∈ errors.
Proof.
  refine (proj1 (C8_duplicate_txid_rejected one_deposit
            (mkTransactionData 1 "deposit-tx-1" (DecimalValue fifty))) _).
  exists 1, {| wallet := 1; txid := "deposit-tx-1"; amount := whole 50 |}.
  split; reflexivity.
Defined.

(** C10 fails at an edit of a thirty-digit amount.  The store is
    reached through the API and its wallet holds 100000000000, the sum
    of its two transactions.  Setting the deposit of
    100000000000.000000000000000049 to 0 would leave the wallet at
    -0.000000000000000049; [Transaction.clean] rounds the difference to
    28 digits, finds the prospective balance 0, and [Transaction.save]
    writes the row. *)
Theorem C10_rounded_validation_admits_overdraft :
  reachable large_deposit ∧
  wallets large_deposit !! 1
  = Some {| label := "Large Wallet"; balance := whole 100000000000 |} ∧
  transactions large_deposit !! 1
  = Some {| wallet := 1; txid := "large-tx-1"; amount := whole 100000000000 + 49 |} ∧
  whole 100000000000 + (amount (row zeroed_deposit) - (whole 100000000000 + 49)) < 0 ∧
  Decimal.sub (amount (row zeroed_deposit)) (whole 100000000000 + 49)
  = - whole 100000000000 ∧
  Decimal.add (whole 100000000000) (- whole 100000000000) = 0 ∧
  (Model_full_clean zeroed_deposit large_deposit).1 = Ok tt ∧
  ∃ s', Transaction_save zeroed_deposit large_deposit = (Ok zeroed_deposit, s') ∧
        transactions s' !! 1 = Some (row zeroed_deposit) ∧
        wallets s' = wallets large_deposit.
Proof.
  split.
  { assert (large_deposit
            = (dispatch (PostTransaction
                           (mkTransactionData 1 "dust-tx-2" (DecimalValue minus_dust)))
                 (dispatch (PostTransaction
                              (mkTransactionData 1 "large-tx-1" (DecimalValue large_amount)))
                    (dispatch (PostWallet "Large Wallet") empty_store).2).2).2) as Heq.
    { vm_compute. reflexivity. }
    rewrite Heq. repeat apply reachable_dispatch. apply reachable_empty. }
  split; [by vm_compute |]. split; [by vm_compute |].
  split; [by vm_compute |]. split; [by vm_compute |].
  split; [by vm_compute |]. split; [by vm_compute |].
  eexists. split; [vm_compute; reflexivity |]. split; by vm_compute.
Qed.

(** ** Two creates in a row *)

(** What the first create committed is what the second validates
    against: run one after the other, two creates on a wallet cannot both
    commit when together they would overdraw it. *)
Lemma sequential_creates_never_overdraw s data1 data2 w d1 d2 i1 s1 i2 s2 :
  data_wallet data1 = data_wallet data2 →
  wallets s !! data_wallet data1 = Some w →
  validate_amount (data_amount data1) = Ok d1 →
  validate_amount (data_amount data2) = Ok d2 →
  TransactionViewSet.create data1 s = (Ok i1, s1) →
  TransactionViewSet.create data2 s1 = (Ok i2, s2) →
  0 ≤ balance w + Decimal.to_units d1 + Decimal.to_units d2.
Proof.
  intros Hsame Hw Hd1 Hd2 Hc1 Hc2.
  destruct (create_cases data1 s)
    as [[Hc _]|(d & w' & Hd & Hw' & _ & _ & [[_ Hc]|[Hb1 Hc]])];
    rewrite Hc in Hc1; try discriminate.
  injection Hc1 as _ Hs1.
  destruct (create_cases data2 s1)
    as [[Hc' _]|(d' & w2 & Hd' & Hw2 & _ & _ & [[_ Hc']|[Hb2 _]])];
    try (rewrite Hc' in Hc2; discriminate).
  subst s1. cbn [wallets] in Hw2.
  rewrite <- Hsame, lookup_alter_eq, Hw' in Hw2. simpl in Hw2.
  assert (d = d1) as -> by congruence. assert (d' = d2) as -> by congruence.
  assert (w' = w) as -> by congruence.
  injection Hw2 as <-. simpl in Hb2. lia.
Qed.

(** * Further properties of the engine *)

(** ** Labels *)

Lemma label_taken_false v exclude (ws : gmap Z Wallet) :
  label_taken v exclude ws = false ↔
  ∀ k w, ws !! k = Some w → Some k ≠ exclude → label w ≠ v.
Proof.
  unfold label_taken. rewrite bool_decide_eq_false. split.
  - intros Hn k w Hk Hx Hl. apply Hn. by exists k, w.
  - intros Hall (k & w & Hk & Hl & Hx). by eapply Hall.
Qed.

Lemma lookup_alter_balance (f : Z → Z) k j (ws : gmap Z Wallet) w' :
  alter (set_balance f) k ws !! j = Some w' →
  ∃ w, ws !! j = Some w ∧ label w = label w'.
Proof.
  rewrite lookup_alter. case_decide; [subst k | by eauto].
  destruct (ws !! j) as [w|]; simpl; [| done]. intros [= <-]. by exists w.
Qed.

Lemma labels_distinct_alter (f : Z → Z) k s s' :
  wallets s' = alter (set_balance f) k (wallets s) →
  labels_distinct s → labels_distinct s'.
Proof.
  intros Heq Hs k1 k2 w1 w2. rewrite Heq.
  intros (v1 & H1 & Hl1)%lookup_alter_balance (v2 & H2 & Hl2)%lookup_alter_balance Hl.
  apply (Hs k1 k2 v1 v2 H1 H2). congruence.
Qed.

Lemma labels_distinct_insert k w s s' :
  wallets s' = <[k := w]> (wallets s) →
  label_taken (label w) (Some k) (wallets s) = false →
  labels_distinct s → labels_distinct s'.
Proof.
  intros Heq Hfree Hs k1 k2 w1 w2. rewrite Heq, !lookup_insert.
  rewrite label_taken_false in Hfree.
  repeat case_decide; intros; simplify_eq; try done.
  - exfalso. eapply (Hfree k2 w2); [done | congruence | done].
  - exfalso. eapply (Hfree k1 w1); [done | congruence | done].
  - by eapply Hs.
Qed.

Lemma labels_distinct_dispatch r s :
  labels_distinct s → labels_distinct (dispatch r s).2.
Proof.
  intros Hs. destruct r as [data|k data|k|l|k l|k]; unfold dispatch; simpl.
  - unfold mbind, DB_bind, mret, DB_ret.
    destruct (create_cases data s)
      as [[-> _]|(d & w & _ & _ & _ & _ & [[_ ->]|[_ ->]])]; [done | done |].
    by eapply labels_distinct_alter.
  - done.
  - rewrite destroy_eq. repeat case_match; try done.
    by eapply labels_distinct_alter.
  - unfold mbind, DB_bind, mret, DB_ret. rewrite wallet_create_eq.
    destruct (label_taken l None (wallets s)) eqn:Hl; [done |].
    eapply labels_distinct_insert; [done | | done]. simpl.
    apply label_taken_false. intros k w Hk _.
    rewrite label_taken_false in Hl. by eapply Hl.
  - unfold mbind, DB_bind, mret, DB_ret. rewrite wallet_partial_update_eq.
    destruct (wallets s !! k) as [w|]; [| done].
    destruct (label_taken l (Some k) (wallets s)) eqn:Hl; [done |].
    by eapply labels_distinct_insert.
  - rewrite wallet_destroy_eq. destruct (wallets s !! k); [| done].
    intros k1 k2 w1 w2. cbn [snd after_wallet_delete wallets].
    intros [_ H1]%lookup_delete_Some [_ H2]%lookup_delete_Some. by eapply Hs.
Qed.

(** X1: whatever requests the API has served since the store was empty,
    every wallet's balance is the sum of its transactions and is not
    negative, txids and labels are pairwise distinct, and every
    transaction's wallet exists. *)
Theorem X1_api_keeps_invariants s :
  reachable s →
  balance_is_sum s ∧ balances_nonneg s ∧ txids_distinct s ∧
  foreign_keys_valid s ∧ labels_distinct s.
Proof.
  intros Hr. destruct (reachable_invariants s Hr) as (Hsum & Hnn & Htx & Hfk).
  repeat split; try done.
  clear -Hr. induction Hr as [|r s _ IH].
  - intros k1 k2 w1 w2 H1. cbn [empty_store wallets] in H1.
    by rewrite lookup_empty in H1.
  - by apply labels_distinct_dispatch.
Qed.

Lemma X1_witness :
  balance_is_sum one_deposit ∧ balances_nonneg one_deposit ∧
  txids_distinct one_deposit ∧ foreign_keys_valid one_deposit ∧
  labels_distinct one_deposit.
Proof.
  apply X1_api_keeps_invariants.
  assert (one_deposit
          = (dispatch (PostTransaction
                         (mkTransactionData 1 "deposit-tx-1" (DecimalValue fifty)))
               (dispatch (PostWallet "Test Wallet") empty_store).2).2) as Heq.
  { vm_compute. reflexivity. }
  rewrite Heq. apply reachable_dispatch, reachable_dispatch, reachable_empty.
Defined.

(** ** What a committed create does, and how it composes *)

(** X2: a committed create adds exactly one row, under a key that was
    free, carrying the wallet, txid and amount of the request; the
    request's wallet gains exactly the amount, its label kept; no other
    wallet and no existing row changes. *)
Theorem X2_create_adds_row_and_amount data s i s' :
  TransactionViewSet.create data s = (Ok i, s') →
  ∃ k d w,
    pk i = Some k ∧ transactions s !! k = None ∧
    validate_amount (data_amount data) = Ok d ∧
    wallets s !! data_wallet data = Some w ∧
    transactions s'
    = <[k := {| wallet := data_wallet data; txid := data_txid data;
                amount := Decimal.to_units d |}]> (transactions s) ∧
    size (transactions s') = S (size (transactions s)) ∧
    wallets s' !! data_wallet data
    = Some {| label := label w; balance := balance w + Decimal.to_units d |} ∧
    ∀ j, j ≠ data_wallet data → wallets s' !! j = wallets s !! j.
Proof.
  intros Hok.
  destruct (create_cases data s)
    as [[Hc _]|(d & w & Hd & Hw & _ & _ & [[_ Hc]|[_ Hc]])];
    rewrite Hc in Hok; try discriminate.
  injection Hok as <- <-.
  exists (next_pk (transactions s)), d, w. cbn [pk wallets transactions].
  split; [done |]. split; [apply next_pk_fresh |].
  split; [done |]. split; [done |]. split; [done |].
  split; [apply map_size_insert_None, next_pk_fresh |].
  split; [by rewrite lookup_alter_eq, Hw |].
  intros j Hj. by rewrite lookup_alter_ne.
Qed.

Lemma X2_witness :
  ∃ k d w,
    pk (mkInstance (Some 2) {| wallet := 1; txid := "deposit-tx-2"; amount := whole 50 |})
    = Some k ∧ transactions one_deposit !! k = None ∧
    validate_amount (DecimalValue fifty) = Ok d ∧
    wallets one_deposit !! 1 = Some w ∧
    transactions (dispatch (PostTransaction
                    (mkTransactionData 1 "deposit-tx-2" (DecimalValue fifty))) one_deposit).2
    = <[k := {| wallet := 1; txid := "deposit-tx-2"; amount := Decimal.to_units d |}]>
        (transactions one_deposit) ∧
    size (transactions (dispatch (PostTransaction
                    (mkTransactionData 1 "deposit-tx-2" (DecimalValue fifty))) one_deposit).2)
    = S (size (transactions one_deposit)) ∧
    wallets (dispatch (PostTransaction
               (mkTransactionData 1 "deposit-tx-2" (DecimalValue fifty))) one_deposit).2 !! 1
    = Some {| label := label w; balance := balance w + Decimal.to_units d |} ∧
    ∀ j, j ≠ 1 →
      wallets (dispatch (PostTransaction
                 (mkTransactionData 1 "deposit-tx-2" (DecimalValue fifty))) one_deposit).2 !! j
      = wallets one_deposit !! j.
Proof.
  apply (X2_create_adds_row_and_amount
           (mkTransactionData 1 "deposit-tx-2" (DecimalValue fifty)) one_deposit).
  vm_compute. reflexivity.
Defined.

Lemma store_eq s ws txs :
  wallets s = ws → transactions s = txs →
  s = {| wallets := ws; transactions := txs |}.
Proof. destruct s. simpl. by intros -> ->. Qed.

(** X3: creating a transaction and then deleting it gives back the
    store as it was before the create, whenever the wallet's balance was
    not negative to begin with. *)
Theorem X3_create_then_delete_restores data s i s1 w :
  wallets s !! data_wallet data = Some w →
  0 ≤ balance w →
  TransactionViewSet.create data s = (Ok i, s1) →
  ∃ k, pk i = Some k ∧ TransactionViewSet.destroy k s1 = (Ok tt, s).
Proof.
  intros Hw Hb Hok.
  destruct (create_cases data s)
    as [[Hc _]|(d & w' & Hd & Hw' & _ & _ & [[_ Hc]|[_ Hc]])];
    rewrite Hc in Hok; try discriminate.
  assert (w' = w) as -> by congruence.
  injection Hok as <- <-.
  exists (next_pk (transactions s)). split; [done |].
  rewrite destroy_eq. cbn [wallets transactions].
  rewrite lookup_insert_eq. cbn [new_instance row wallet amount].
  rewrite lookup_alter_eq, Hw. cbn [fmap option_fmap option_map set_balance balance].
  destruct (balance w + Decimal.to_units d - Decimal.to_units d <? 0) eqn:Hn; [lia |].
  f_equal. symmetry. apply store_eq; unfold after_delete; cbn [wallets transactions wallet amount].
  - symmetry. rewrite alter_alter_eq. apply alter_id.
    intros x Hx. assert (x = w) as -> by congruence.
    destruct w as [l b]. unfold set_balance. simpl. f_equal. lia.
  - symmetry. apply delete_insert_id, next_pk_fresh.
Qed.

Lemma X3_witness :
  ∃ k, pk (mkInstance (Some 2) {| wallet := 1; txid := "deposit-tx-2"; amount := whole 50 |})
       = Some k ∧
       TransactionViewSet.destroy k
         (dispatch (PostTransaction
            (mkTransactionData 1 "deposit-tx-2" (DecimalValue fifty))) one_deposit).2
       = (Ok tt, one_deposit).
Proof.
  apply (X3_create_then_delete_restores
           (mkTransactionData 1 "deposit-tx-2" (DecimalValue fifty)) one_deposit
           _ _ {| label := "Test Wallet"; balance := whole 50 |}).
  - reflexivity.
  - vm_compute. discriminate.
  - vm_compute. reflexivity.
Defined.

Lemma txid_taken_insert_false v k t (txs : gmap Z Transaction) :
  txid t ≠ v → txid_taken v None txs = false →
  txid_taken v None (<[k := t]> txs) = false.
Proof.
  rewrite !txid_taken_false. intros Ht Hfree j t' Hj _.
  apply lookup_insert_Some in Hj as [[_ <-]|[_ Hj]]; [done | by eapply Hfree].
Qed.

(** X4: the second of two creates on one wallet is validated against
    the balance the first one committed: with balance [B] before, a first
    create of [a1] committed and the guards of the second passed, the
    second is rejected for a negative balance when [B + a1 + a2 < 0] and
    otherwise commits, leaving [B + a1 + a2]. *)
Theorem X4_second_create_sees_first s data1 data2 w d1 d2 i1 s1 :
  data_wallet data2 = data_wallet data1 →
  wallets s !! data_wallet data1 = Some w →
  validate_amount (data_amount data1) = Ok d1 →
  validate_amount (data_amount data2) = Ok d2 →
  data_txid data2 ≠ data_txid data1 →
  txid_taken (data_txid data2) None (transactions s) = false →
  TransactionViewSet.create data1 s = (Ok i1, s1) →
  (balance w + Decimal.to_units d1 + Decimal.to_units d2 < 0 →
   TransactionViewSet.create data2 s1
   = (Raise (SerializerValidationError (MessageDict [("amount", NegativeBalance)])), s1)) ∧
  (0 ≤ balance w + Decimal.to_units d1 + Decimal.to_units d2 →
   ∃ i2 s2,
     TransactionViewSet.create data2 s1 = (Ok i2, s2) ∧
     wallets s2 !! data_wallet data1
     = Some {| label := label w;
               balance := balance w + Decimal.to_units d1 + Decimal.to_units d2 |}).
Proof.
  intros Hsame Hw Hd1 Hd2 Hne Hfree Hok.
  destruct (create_cases data1 s)
    as [[Hc _]|(d & w' & Hd & Hw' & _ & _ & [[_ Hc]|[_ Hc]])];
    rewrite Hc in Hok; try discriminate.
  assert (d = d1) as -> by congruence. assert (w' = w) as -> by congruence.
  injection Hok as _ Hs1.
  assert (wallets s1 !! data_wallet data2
          = Some {| label := label w; balance := balance w + Decimal.to_units d1 |}) as Hw1.
  { rewrite <- Hs1, Hsame. cbn [wallets]. by rewrite lookup_alter_eq, Hw. }
  assert (txid_taken (data_txid data2) None (transactions s1) = false) as Hfree1.
  { rewrite <- Hs1. cbn [transactions]. by apply txid_taken_insert_false. }
  destruct (create_cases data2 s1)
    as [[_ Hne']|(d' & w2 & Hd' & Hw2 & _ & _ & Hcases)].
  { exfalso. apply Hne'. unfold create_field_errors, wallet_field_errors,
      txid_field_errors, amount_field_errors. by rewrite Hw1, Hfree1, Hd2. }
  assert (d' = d2) as -> by congruence. rewrite Hw1 in Hw2. injection Hw2 as <-.
  cbn [balance] in Hcases. split.
  - intros Hneg. destruct Hcases as [[_ ?]|[? _]]; [done | lia].
  - intros Hpos. destruct Hcases as [[? _]|[_ ->]]; [lia |].
    eexists _, _. split; [done |]. cbn [wallets].
    by rewrite <- Hsame, lookup_alter_eq, Hw1.
Qed.

Lemma X4_witness :
  TransactionViewSet.create
    (mkTransactionData 1 "withdrawal-2" (DecimalValue minus_sixty))
    (dispatch (PostTransaction
       (mkTransactionData 1 "deposit-tx-2" (DecimalValue fifty))) one_deposit).2
  = (Ok (mkInstance (Some 3) {| wallet := 1; txid := "withdrawal-2"; amount := whole (-60) |}),
     (dispatch (PostTransaction
        (mkTransactionData 1 "withdrawal-2" (DecimalValue minus_sixty)))
        (dispatch (PostTransaction
           (mkTransactionData 1 "deposit-tx-2" (DecimalValue fifty))) one_deposit).2).2)
  ∧ ∃ i2 s2,
      TransactionViewSet.create
        (mkTransactionData 1 "withdrawal-2" (DecimalValue minus_sixty))
        (dispatch (PostTransaction
           (mkTransactionData 1 "deposit-tx-2" (DecimalValue fifty))) one_deposit).2
      = (Ok i2, s2) ∧
      wallets s2 !! 1
      = Some {| label := "Test Wallet";
                balance := whole 50 + Decimal.to_units fifty + Decimal.to_units minus_sixty |}.
Proof.
  split; [vm_compute; reflexivity |].
  refine (proj2 (X4_second_create_sees_first one_deposit
            (mkTransactionData 1 "deposit-tx-2" (DecimalValue fifty))
            (mkTransactionData 1 "withdrawal-2" (DecimalValue minus_sixty))
            {| label := "Test Wallet"; balance := whole 50 |} fifty minus_sixty
            (mkInstance (Some 2) {| wallet := 1; txid := "deposit-tx-2"; amount := whole 50 |})
            _ _ _ _ _ _ _ _) _).
  - reflexivity.
  - reflexivity.
  - reflexivity.
  - reflexivity.
  - discriminate.
  - vm_compute. reflexivity.
  - vm_compute. reflexivity.
  - vm_compute. discriminate.
Defined.

(** ** Deleting transactions *)

(** X5: where balances equal the sums of their transactions, a stored
    transaction can be deleted exactly when the other transactions of its
    wallet sum to a balance that is not negative. *)
Theorem X5_delete_allowed_iff_rest_nonneg s k t w :
  balance_is_sum s →
  transactions s !! k = Some t →
  wallets s !! wallet t = Some w →
  (∃ s', TransactionViewSet.destroy k s = (Ok tt, s'))
  ↔ 0 ≤ transaction_sum (wallet t) (delete k (transactions s)).
Proof.
  intros Hsum Ht Hw. rewrite destroy_eq, Ht, Hw.
  pose proof (transaction_sum_delete (wallet t) k t (transactions s) Ht) as Hd.
  unfold contribution in Hd. rewrite decide_True in Hd by done.
  rewrite <- (Hsum _ _ Hw) in Hd.
  destruct (balance w - amount t <? 0) eqn:Hb; split.
  - by intros [s' ?].
  - lia.
  - lia.
  - eauto.
Qed.

Lemma X5_witness :
  (∃ s', TransactionViewSet.destroy 1 one_deposit = (Ok tt, s'))
  ↔ 0 ≤ transaction_sum 1 (delete 1 (transactions one_deposit)).
Proof.
  apply (X5_delete_allowed_iff_rest_nonneg one_deposit 1
           {| wallet := 1; txid := "deposit-tx-1"; amount := whole 50 |}
           {| label := "Test Wallet"; balance := whole 50 |}).
  - intros k w. unfold one_deposit. cbn [wallets transactions].
    intros [<- <-]%lookup_singleton_Some. vm_compute. reflexivity.
  - reflexivity.
  - reflexivity.
Defined.

(** X6: a committed delete removes the row for good: the same request
    sent again is answered 404 and changes nothing, and (txids being
    distinct) the txid of the deleted transaction is free for a new
    create. *)
Theorem X6_deleted_transaction_is_gone s k s' :
  TransactionViewSet.destroy k s = (Ok tt, s') →
  transactions s' !! k = None ∧
  TransactionViewSet.destroy k s' = (Raise Http404, s') ∧
  (txids_distinct s →
   ∀ t, transactions s !! k = Some t →
        txid_taken (txid t) None (transactions s') = false).
Proof.
  rewrite destroy_eq. intros Hok.
  destruct (transactions s !! k) as [t|] eqn:Ht; [| done].
  destruct (wallets s !! wallet t) as [w|]; [| done].
  destruct (balance w - amount t <? 0); [done |].
  injection Hok as <-. cbn [after_delete transactions].
  assert (delete k (transactions s) !! k = None) as Hgone by apply lookup_delete_eq.
  split; [done |]. split.
  - rewrite destroy_eq. cbn [after_delete transactions]. by rewrite Hgone.
  - intros Hdist t' [= <-]. apply txid_taken_false. intros j t' Hj _ Heq.
    apply lookup_delete_Some in Hj as [Hjk Hj]. apply Hjk. symmetry. by eapply Hdist.
Qed.

Lemma X6_witness :
  transactions (dispatch (DeleteTransaction 1) one_deposit).2 !! 1 = None ∧
  TransactionViewSet.destroy 1 (dispatch (DeleteTransaction 1) one_deposit).2
  = (Raise Http404, (dispatch (DeleteTransaction 1) one_deposit).2) ∧
  (txids_distinct one_deposit →
   ∀ t, transactions one_deposit !! 1 = Some t →
        txid_taken (txid t) None
          (transactions (dispatch (DeleteTransaction 1) one_deposit).2) = false).
Proof.
  apply (X6_deleted_transaction_is_gone one_deposit 1).
  vm_compute. reflexivity.
Defined.

(** ** What a failed request is answered *)

Lemma create_field_errors_keys data s key r :
  (key, r) ∈ create_field_errors data s → key ∈ error_keys.
Proof.
  unfold create_field_errors, wallet_field_errors, txid_field_errors,
    amount_field_errors.
  destruct (wallets s !! data_wallet data);
    destruct (txid_taken _ _ _);
    destruct (validate_amount_cases (data_amount data)) as [(d & -> & _)|[-> | ->]];
    simpl; intros H;
    repeat (apply elem_of_cons in H as [[= -> _]|H];
            [apply list_elem_of_In; simpl; tauto |]);
    by apply elem_of_nil in H.
Qed.

Lemma api_error_single key r :
  key ∈ error_keys →
  api_error (SerializerValidationError (MessageDict [(key, r)])).
Proof.
  intros Hkey. right. right. eexists. split; [done |]. split; [done |].
  intros key' r' [[= -> _]|H]%elem_of_cons; [done | by apply elem_of_nil in H].
Qed.

(** X7: a request to the API that fails is answered 404, 405, or 400
    with a non-empty dict of reasons under the names wallet, txid, amount,
    non_field_errors or label: as long as every transaction's wallet
    exists, no Django validation error and no other exception leaves a
    view. *)
Theorem X7_failures_are_client_errors r s e s' :
  foreign_keys_valid s →
  dispatch r s = (Raise e, s') →
  api_error e.
Proof.
  intros Hfk. destruct r as [data|k data|k|l|k l|k]; unfold dispatch; simpl.
  - unfold mbind, DB_bind, mret, DB_ret.
    destruct (create_cases data s)
      as [[-> Hne]|(d & w & _ & _ & _ & _ & [[_ ->]|[_ ->]])]; intros [= <- _].
    + right. right. eexists. split; [done |]. split; [done |].
      intros key r. apply create_field_errors_keys.
    + apply api_error_single, list_elem_of_In. simpl. tauto.
  - intros [= <- _]. right. by left.
  - rewrite destroy_eq.
    destruct (transactions s !! k) as [t|] eqn:Ht; [| intros [= <- _]; by left].
    destruct (Hfk k t Ht) as [w ->].
    destruct (balance w - amount t <? 0); [| done]. intros [= <- _].
    apply api_error_single, list_elem_of_In. simpl. tauto.
  - unfold mbind, DB_bind, mret, DB_ret. rewrite wallet_create_eq.
    destruct (label_taken l None (wallets s)); [| done]. intros [= <- _].
    apply api_error_single, list_elem_of_In. simpl. tauto.
  - unfold mbind, DB_bind, mret, DB_ret. rewrite wallet_partial_update_eq.
    destruct (wallets s !! k) as [w|]; [| intros [= <- _]; by left].
    destruct (label_taken l (Some k) (wallets s)); [| done]. intros [= <- _].
    apply api_error_single, list_elem_of_In. simpl. tauto.
  - rewrite wallet_destroy_eq.
    destruct (wallets s !! k); [done | intros [= <- _]; by left].
Qed.

Lemma X7_witness :
  api_error (SerializerValidationError (MessageDict [("amount", NegativeBalance)])).
Proof.
  refine (X7_failures_are_client_errors
            (PostTransaction
               (mkTransactionData 1 "overdraft-tx-1" (DecimalValue minus_sixty)))
            one_deposit _ one_deposit _ _).
  - intros k t. unfold one_deposit. cbn [wallets transactions].
    intros [<- <-]%lookup_singleton_Some. cbn [wallet].
    rewrite lookup_singleton_eq. eexists. reflexivity.
  - vm_compute. reflexivity.
Defined.

(** ** Wallet requests *)

(** X8: deleting a wallet that does not exist is answered 404 and
    changes nothing; deleting one that exists removes its row and exactly
    the transactions that reference it, and keeps every other wallet row
    (balance included) and every other transaction as they were. *)
Theorem X8_wallet_delete_cascades k s :
  (wallets s !! k = None → dispatch (DeleteWallet k) s = (Raise Http404, s)) ∧
  (is_Some (wallets s !! k) →
   ∃ s', dispatch (DeleteWallet k) s = (Ok tt, s') ∧
         wallets s' !! k = None ∧
         (∀ j, j ≠ k → wallets s' !! j = wallets s !! j) ∧
         (∀ j t, transactions s' !! j = Some t
                 ↔ transactions s !! j = Some t ∧ wallet t ≠ k)).
Proof.
  unfold dispatch. simpl. rewrite wallet_destroy_eq. split.
  - by intros ->.
  - intros [w ->]. eexists. split; [done |].
    cbn [after_wallet_delete wallets transactions]. split; [apply lookup_delete_eq |].
    split; [intros j Hj; by apply lookup_delete_ne |].
    intros j t. by rewrite map_lookup_filter_Some.
Qed.

Lemma X8_witness :
  ∃ s', dispatch (DeleteWallet 1) one_deposit = (Ok tt, s') ∧
        wallets s' !! 1 = None ∧
        (∀ j, j ≠ 1 → wallets s' !! j = wallets one_deposit !! j) ∧
        (∀ j t, transactions s' !! j = Some t
                ↔ transactions one_deposit !! j = Some t ∧ wallet t ≠ 1).
Proof.
  apply (proj2 (X8_wallet_delete_cascades 1 one_deposit)).
  eexists. reflexivity.
Defined.

Lemma label_taken_true v exclude (ws : gmap Z Wallet) :
  label_taken v exclude ws = true ↔
  ∃ k w, ws !! k = Some w ∧ label w = v ∧ Some k ≠ exclude.
Proof. unfold label_taken. by rewrite bool_decide_eq_true. Qed.

(** X9: the API never sets a balance from a request.  A wallet is
    created with balance 0 under a key that was free, unless its label is
    in use; a wallet update changes the label of that one wallet and
    keeps its balance, unless another wallet has the label; in both cases
    the transactions and all other wallets stay as they were, and a
    rejected request changes nothing. *)
Theorem X9_wallet_requests_keep_balances l s :
  ((∃ k w, wallets s !! k = Some w ∧ label w = l) →
   dispatch (PostWallet l) s
   = (Raise (SerializerValidationError (MessageDict [("label", UniqueViolation)])), s)) ∧
  ((∀ k w, wallets s !! k = Some w → label w ≠ l) →
   ∃ k, wallets s !! k = None ∧
        dispatch (PostWallet l) s
        = (Ok tt, {| wallets := <[k := {| label := l; balance := 0 |}]> (wallets s);
                     transactions := transactions s |})) ∧
  (∀ k w, wallets s !! k = Some w →
     ((∃ k' w', k' ≠ k ∧ wallets s !! k' = Some w' ∧ label w' = l) →
      dispatch (PatchWallet k l) s
      = (Raise (SerializerValidationError (MessageDict [("label", UniqueViolation)])), s)) ∧
     ((∀ k' w', k' ≠ k → wallets s !! k' = Some w' → label w' ≠ l) →
      dispatch (PatchWallet k l) s
      = (Ok tt, {| wallets := <[k := {| label := l; balance := balance w |}]> (wallets s);
                   transactions := transactions s |}))).
Proof.
  unfold dispatch. simpl. unfold mbind, DB_bind, mret, DB_ret.
  rewrite wallet_create_eq. repeat split.
  - intros (k & w & Hk & Hl).
    assert (label_taken l None (wallets s) = true) as ->; [| done].
    apply label_taken_true. by exists k, w.
  - intros Hfree.
    assert (label_taken l None (wallets s) = false) as ->.
    { apply label_taken_false. intros k w Hk _. by eapply Hfree. }
    exists (next_pk (wallets s)). split; [apply next_pk_fresh | done].
  - intros (k' & w' & Hne & Hk' & Hl). rewrite wallet_partial_update_eq, H.
    assert (label_taken l (Some k) (wallets s) = true) as ->; [| done].
    apply label_taken_true. exists k', w'. split; [done |]. split; [done | congruence].
  - intros Hfree. rewrite wallet_partial_update_eq, H.
    assert (label_taken l (Some k) (wallets s) = false) as ->; [| done].
    apply label_taken_false. intros k' w' Hk' Hne. eapply Hfree; [| done]. congruence.
Qed.

Lemma X9_witness :
  dispatch (PostWallet "Test Wallet") one_deposit
  = (Raise (SerializerValidationError (MessageDict [("label", UniqueViolation)])), one_deposit)
  ∧ dispatch (PatchWallet 1 "Renamed") one_deposit
    = (Ok tt, {| wallets := <[1 := {| label := "Renamed"; balance := whole 50 |}]>
                              (wallets one_deposit);
                 transactions := transactions one_deposit |}).
Proof.
  split.
  - apply (proj1 (X9_wallet_requests_keep_balances "Test Wallet" one_deposit)).
    exists 1, {| label := "Test Wallet"; balance := whole 50 |}. split; reflexivity.
  - refine (proj2 (proj2 (proj2 (X9_wallet_requests_keep_balances "Renamed" one_deposit))
              1 {| label := "Test Wallet"; balance := whole 50 |} _) _).
    + reflexivity.
    + intros k' w' Hne. unfold one_deposit. cbn [wallets].
      intros [<- _]%lookup_singleton_Some. by destruct Hne.
Defined.

(** ** The serializer's update path *)

Lemma readonly_validate_txid instance v : readonly (validate_txid instance v).
Proof.
  intros s. unfold validate_txid, Transaction_objects_filter_txid_exists.
  unfold_db. repeat case_match; done.
Qed.

Lemma readonly_wallet_field id : readonly (wallet_field id).
Proof.
  intros s. unfold wallet_field, Wallet_objects_get. unfold_db.
  by destruct (wallets s !! id).
Qed.

Lemma readonly_run_field {A} name (m : DB A) :
  readonly m → readonly (run_field name m).
Proof.
  intros Hm. unfold run_field. apply readonly_try_except.
  - apply readonly_bind; [done | intros; apply readonly_ret].
  - intros e k Hk. destruct e; simplify_eq. apply readonly_ret.
Qed.

Lemma readonly_run_optional_field {A B} name (value : option A) (validate : A → DB B) :
  (∀ v, readonly (validate v)) → readonly (run_optional_field name value validate).
Proof.
  intros Hv. unfold run_optional_field. destruct value as [v|]; [| apply readonly_ret].
  apply readonly_bind; [by apply readonly_run_field | intros; apply readonly_ret].
Qed.

Lemma readonly_is_valid_update instance data : readonly (is_valid_update instance data).
Proof.
  unfold is_valid_update.
  apply readonly_bind;
    [apply readonly_run_optional_field, readonly_wallet_field | intros w].
  apply readonly_bind;
    [apply readonly_run_optional_field, readonly_validate_txid | intros t].
  apply readonly_bind;
    [apply readonly_run_optional_field; intros; apply readonly_lift | intros a].
  destruct w, t, a; first [apply readonly_ret | apply readonly_raise].
Qed.

Lemma TransactionSerializer_update_eq instance validated_data s :
  TransactionSerializer_update instance validated_data s
  = Transaction_save (patched instance validated_data) s.
Proof.
  unfold TransactionSerializer_update. fold (patched instance validated_data).
  unfold mbind, DB_bind at 1.
  rewrite Model_full_clean_eq, Transaction_save_eq.
  by destruct (clean_errors _ s ++ unique_errors _ s).
Qed.

Lemma update_transaction_eq k data s :
  update_transaction k data s =
  match transactions s !! k with
  | None => (Raise Http404, s)
  | Some t =>
      match (is_valid_update (mkInstance (Some k) t) data s).1 with
      | Raise e => (Raise e, s)
      | Ok v =>
          let saved := patched (mkInstance (Some k) t) v in
          match clean_errors saved s ++ unique_errors saved s with
          | [] => (Ok saved,
                   {| wallets := wallets s;
                      transactions := <[k := row saved]> (transactions s) |})
          | errors => (Raise (DjangoValidationError (MessageDict errors)), s)
          end
      end
  end.
Proof.
  unfold update_transaction, TransactionViewSet.get_object, Transaction_objects_get.
  unfold mbind, DB_bind, try_except, mret, DB_ret.
  destruct (transactions s !! k) as [t|] eqn:Hk; [| done].
  pose proof (readonly_is_valid_update (mkInstance (Some k) t) data s) as Hro.
  destruct (is_valid_update (mkInstance (Some k) t) data s) as [[v|e] s1];
    simpl in Hro; subst s1; [| done].
  rewrite TransactionSerializer_update_eq, Transaction_save_eq. simpl.
  destruct (clean_errors _ s ++ unique_errors _ s); [| done].
  unfold after_save, save_creates, save_key, patched. simpl.
  by rewrite Hk, bool_decide_eq_false_2.
Qed.

(** X10: an edit through the serializer, whatever attributes it carries
    (amount, txid, wallet) and whether it commits or is rejected, never
    changes a wallet row, so no balance moves, and never changes a
    transaction other than the one edited. *)
Theorem X10_update_never_touches_wallets k data s :
  wallets (update_transaction k data s).2 = wallets s ∧
  ∀ j, j ≠ k → transactions (update_transaction k data s).2 !! j = transactions s !! j.
Proof.
  rewrite update_transaction_eq.
  destruct (transactions s !! k) as [t|]; [| done].
  destruct (is_valid_update _ data s).1 as [v|e]; [| done]. cbn zeta.
  destruct (clean_errors _ s ++ unique_errors _ s); [| done].
  split; [done |]. intros j Hj. cbn [snd transactions]. by rewrite lookup_insert_ne.
Qed.

Lemma is_valid_update_txid instance v s :
  (is_valid_update instance (mkTransactionPatch None (Some v) None) s).1 =
  if bool_decide (txid (row instance) ≠ v) && txid_taken v None (transactions s)
  then Raise (SerializerValidationError (MessageDict [("txid", DuplicateTxid)]))
  else Ok (mkValidatedPatch None (Some v) None).
Proof.
  unfold is_valid_update, run_optional_field, run_field, validate_txid,
    Transaction_objects_filter_txid_exists.
  unfold_db. simpl.
  destruct (bool_decide (txid (row instance) ≠ v)); simpl; [| done].
  by destruct (txid_taken v None (transactions s)).
Qed.

(** X11: editing the txid of a stored transaction (non-zero key, wallet
    present with a balance that is not negative, txids distinct) is
    rejected under the name txid, with nothing changed, when another
    transaction carries the new txid; otherwise, the transaction's own
    txid included, it commits and the row carries the new txid, wallet
    and amount kept and no wallet touched. *)
Theorem X11_txid_edit s k t w v :
  k ≠ 0 →
  transactions s !! k = Some t →
  wallets s !! wallet t = Some w →
  0 ≤ balance w →
  txids_distinct s →
  ((∃ k' t', k' ≠ k ∧ transactions s !! k' = Some t' ∧ txid t' = v) →
   update_transaction k (mkTransactionPatch None (Some v) None) s
   = (Raise (SerializerValidationError (MessageDict [("txid", DuplicateTxid)])), s)) ∧
  ((∀ k' t', k' ≠ k → transactions s !! k' = Some t' → txid t' ≠ v) →
   update_transaction k (mkTransactionPatch None (Some v) None) s
   = (Ok (mkInstance (Some k) {| wallet := wallet t; txid := v; amount := amount t |}),
      {| wallets := wallets s;
         transactions :=
           <[k := {| wallet := wallet t; txid := v; amount := amount t |}]>
             (transactions s) |})).
Proof.
  intros Hk Ht Hw Hb Hdist.
  rewrite update_transaction_eq, Ht, is_valid_update_txid. cbn [row txid]. split.
  - intros (k' & t' & Hne & Hk' & Hv).
    assert (txid t ≠ v) as Htv.
    { intros Heq. apply Hne. eapply Hdist; [done | done | congruence]. }
    rewrite bool_decide_eq_true_2 by done.
    assert (txid_taken v None (transactions s) = true) as ->; [| done].
    apply txid_taken_true. by exists k', t'.
  - intros Hfree.
    assert (bool_decide (txid t ≠ v) && txid_taken v None (transactions s) = false) as ->.
    { destruct (bool_decide (txid t ≠ v)) eqn:Htv; [| done]. simpl.
      apply bool_decide_eq_true in Htv. apply txid_taken_false.
      intros j tj Hj _. destruct (decide (j = k)) as [->|Hjk]; [congruence |].
      by eapply Hfree. }
    cbn zeta. unfold patched. simpl.
    assert (clean_errors (mkInstance (Some k)
              {| wallet := wallet t; txid := v; amount := amount t |}) s = []) as ->.
    { apply clean_errors_nil. unfold clean_outcome. simpl.
      rewrite Hw, (proj2 (Z.eqb_neq k 0) Hk), Ht.
      rewrite edit_prospective_balance_same.
      destruct (_ <? 0) eqn:Hn; [lia | done]. }
    assert (unique_errors (mkInstance (Some k)
              {| wallet := wallet t; txid := v; amount := amount t |}) s = []) as ->;
      [| done].
    unfold unique_errors. simpl.
    destruct (txid_taken v (Some k) (transactions s)) eqn:Htk; [| done].
    apply txid_taken_true in Htk as (k' & t' & Hk' & Heq & Hne).
    exfalso. eapply (Hfree k' t'); [congruence | done | done].
Qed.

Lemma X11_witness :
  update_transaction 1 (mkTransactionPatch None (Some "deposit-tx-1") None) one_deposit
  = (Ok (mkInstance (Some 1) {| wallet := 1; txid := "deposit-tx-1"; amount := whole 50 |}),
     {| wallets := wallets one_deposit;
        transactions :=
          <[1 := {| wallet := 1; txid := "deposit-tx-1"; amount := whole 50 |}]>
            (transactions one_deposit) |}).
Proof.
  refine (proj2 (X11_txid_edit one_deposit 1
            {| wallet := 1; txid := "deposit-tx-1"; amount := whole 50 |}
            {| label := "Test Wallet"; balance := whole 50 |} "deposit-tx-1" _ _ _ _ _) _).
  - discriminate.
  - reflexivity.
  - reflexivity.
  - vm_compute. discriminate.
  - intros k1 k2 t1 t2. unfold one_deposit. cbn [transactions].
    intros [<- _]%lookup_singleton_Some [<- _]%lookup_singleton_Some _. reflexivity.
  - intros k' t' Hne. unfold one_deposit. cbn [transactions].
    intros [<- _]%lookup_singleton_Some. by destruct Hne.
Defined.

(** ** [Transaction.save] on stored rows and on unknown keys *)

(** X12: saving a stored transaction again without a change (as after
    editing a field the engine does not look at) commits and leaves the
    store exactly as it was, provided its key is not zero, its wallet
    exists with a balance that is not negative and txids are distinct. *)
Theorem X12_resave_is_noop s k t w :
  k ≠ 0 →
  transactions s !! k = Some t →
  wallets s !! wallet t = Some w →
  0 ≤ balance w →
  txids_distinct s →
  Transaction_save (mkInstance (Some k) t) s = (Ok (mkInstance (Some k) t), s).
Proof.
  intros Hk Ht Hw Hb Hdist. rewrite Transaction_save_eq.
  assert (clean_errors (mkInstance (Some k) t) s = []) as ->.
  { apply clean_errors_nil. unfold clean_outcome. simpl.
    rewrite Hw, (proj2 (Z.eqb_neq k 0) Hk), Ht.
    rewrite edit_prospective_balance_same.
    destruct (_ <? 0) eqn:Hn; [lia | done]. }
  assert (unique_errors (mkInstance (Some k) t) s = []) as ->.
  { unfold unique_errors. simpl.
    destruct (txid_taken (txid t) (Some k) (transactions s)) eqn:Htk; [| done].
    apply txid_taken_true in Htk as (k' & t' & Hk' & Heq & Hne).
    exfalso. apply Hne. f_equal. by eapply Hdist. }
  simpl. f_equal. unfold after_save, save_creates, save_key. simpl.
  rewrite bool_decide_eq_false_2 by by rewrite Ht.
  symmetry. apply store_eq; [done |]. cbn [transactions]. by rewrite insert_id.
Qed.

Lemma X12_witness :
  Transaction_save
    (mkInstance (Some 1) {| wallet := 1; txid := "deposit-tx-1"; amount := whole 50 |})
    one_deposit
  = (Ok (mkInstance (Some 1) {| wallet := 1; txid := "deposit-tx-1"; amount := whole 50 |}),
     one_deposit).
Proof.
  refine (X12_resave_is_noop one_deposit 1
            {| wallet := 1; txid := "deposit-tx-1"; amount := whole 50 |}
            {| label := "Test Wallet"; balance := whole 50 |} _ _ _ _ _).
  - discriminate.
  - reflexivity.
  - reflexivity.
  - vm_compute. discriminate.
  - intros k1 k2 t1 t2. unfold one_deposit. cbn [transactions].
    intros [<- _]%lookup_singleton_Some [<- _]%lookup_singleton_Some _. reflexivity.
Defined.

(** X13: [Transaction.save] never inserts under a key the caller chose:
    an instance whose key is set, not zero, and names no stored row is
    rejected with 'Transaction for update not found.' among the errors not
    tied to a field, and nothing is written. *)
Theorem X13_save_rejects_unknown_key self k w s :
  pk self = Some k →
  k ≠ 0 →
  transactions s !! k = None →
  wallets s !! wallet (row self) = Some w →
  ∃ errors,
    Transaction_save self s = (Raise (DjangoValidationError (MessageDict errors)), s) ∧
    (NON_FIELD_ERRORS, UpdateTargetMissing) ∈ errors.
Proof.
  intros Hpk Hk Hnone Hw. rewrite Transaction_save_eq.
  assert (clean_errors self s = [(NON_FIELD_ERRORS, UpdateTargetMissing)]) as ->.
  { unfold clean_errors, clean_outcome. rewrite Hw, Hpk. simpl.
    by rewrite (proj2 (Z.eqb_neq k 0) Hk), Hnone. }
  simpl. eexists. split; [done |]. apply elem_of_cons. by left.
Qed.

Lemma X13_witness :
  ∃ errors,
    Transaction_save
      (mkInstance (Some 7) {| wallet := 1; txid := "chosen-key"; amount := whole 50 |})
      one_deposit
    = (Raise (DjangoValidationError (MessageDict errors)), one_deposit) ∧
    (NON_FIELD_ERRORS, UpdateTargetMissing) ∈ errors.
Proof.
  refine (X13_save_rejects_unknown_key
            (mkInstance (Some 7) {| wallet := 1; txid := "chosen-key"; amount := whole 50 |})
            7 {| label := "Test Wallet"; balance := whole 50 |} one_deposit _ _ _ _).
  - reflexivity.
  - discriminate.
  - reflexivity.
  - reflexivity.
Defined.

(** X19: [Transaction.save] validates before it writes, for any
    instance and any store.  A save that commits passed [full_clean] on
    the store as it was: the wallet was found and the prospective
    balance [Transaction.clean] computed was not negative (balance plus
    amount for a new transaction; for an existing one the balance plus
    the change of amount, each of the two operations rounded to 28
    digits).  A save whose wallet is missing, or for which the
    prospective balance so computed is negative, raises and writes
    nothing. *)
Theorem X19_save_validates_first self s :
  (∀ i s', Transaction_save self s = (Ok i, s') →
     (Model_full_clean self s).1 = Ok tt ∧
     ∃ w, wallets s !! wallet (row self) = Some w ∧
          (not_pk (pk self) = true → 0 ≤ balance w + amount (row self)) ∧
          (not_pk (pk self) = false →
           ∃ k old, pk self = Some k ∧ transactions s !! k = Some old ∧
                    0 ≤ edit_prospective_balance (balance w) (amount (row self))
                          (amount old))) ∧
  (wallets s !! wallet (row self) = None →
   ∃ errors, Transaction_save self s = (Raise (DjangoValidationError (MessageDict errors)), s) ∧
             ("wallet", WalletMissing) ∈ errors) ∧
  (∀ w, wallets s !! wallet (row self) = Some w →
        not_pk (pk self) = true →
        balance w + amount (row self) < 0 →
        ∃ errors, Transaction_save self s = (Raise (DjangoValidationError (MessageDict errors)), s) ∧
                  ("amount", NegativeBalance) ∈ errors) ∧
  (∀ w k old, wallets s !! wallet (row self) = Some w →
        pk self = Some k → k ≠ 0 → transactions s !! k = Some old →
        edit_prospective_balance (balance w) (amount (row self)) (amount old) < 0 →
        ∃ errors, Transaction_save self s = (Raise (DjangoValidationError (MessageDict errors)), s) ∧
                  ("amount", NegativeBalance) ∈ errors).
Proof.
  assert (∀ e, clean_errors self s = [e] →
    ∃ errors, Transaction_save self s = (Raise (DjangoValidationError (MessageDict errors)), s) ∧
              e ∈ errors) as Hraise.
  { intros e He. rewrite Transaction_save_eq, He. simpl.
    eexists. split; [done |]. apply elem_of_cons. by left. }
  repeat split.
  - rewrite Transaction_save_eq in H. rewrite Model_full_clean_eq.
    by destruct (clean_errors self s ++ unique_errors self s).
  - rewrite Transaction_save_eq in H.
    destruct (clean_errors self s ++ unique_errors self s) eqn:He; [| done].
    apply app_eq_nil in He as [Hc%clean_errors_nil _].
    unfold clean_outcome in Hc.
    destruct (wallets s !! wallet (row self)) as [w|]; [| done].
    exists w. split; [done |].
    destruct (not_pk (pk self)) eqn:Hpk.
    + split; [| done]. intros _.
      destruct (balance w + amount (row self) <? 0) eqn:Hb; [done | lia].
    + split; [done |]. intros _.
      destruct (pk self) as [k|]; [| done]. simpl in Hc.
      destruct (transactions s !! k) as [old|] eqn:Hold; [| done].
      exists k, old. split; [done |]. split; [done |].
      destruct (_ <? 0) eqn:Hb; [done | lia].
  - intros Hw. apply Hraise. unfold clean_errors, clean_outcome. by rewrite Hw.
  - intros w Hw Hpk Hb. apply Hraise.
    unfold clean_errors, clean_outcome. rewrite Hw, Hpk.
    by rewrite (proj2 (Z.ltb_lt _ _) Hb).
  - intros w k old Hw Hpk Hk Hold Hb. apply Hraise.
    unfold clean_errors, clean_outcome. rewrite Hw, Hpk. simpl.
    rewrite (proj2 (Z.eqb_neq k 0) Hk), Hold.
    by rewrite (proj2 (Z.ltb_lt _ _) Hb).
Qed.

Lemma X19_witness :
  ∃ errors,
    Transaction_save
      (mkInstance None {| wallet := 1; txid := "overdraft-tx-1"; amount := whole (-60) |})
      one_deposit
    = (Raise (DjangoValidationError (MessageDict errors)), one_deposit) ∧
    ("amount", NegativeBalance) ∈ errors.
Proof.
  refine (proj1 (proj2 (proj2 (X19_save_validates_first
            (mkInstance None {| wallet := 1; txid := "overdraft-tx-1"; amount := whole (-60) |})
            one_deposit)))
          {| label := "Test Wallet"; balance := whole 50 |} _ _ _).
  - reflexivity.
  - reflexivity.
  - vm_compute. reflexivity.
Defined.

(** ** The amount guard on every kind of input *)

(** X14: whatever [validate_amount] is called with, an amount it
    accepts is a finite decimal with at most 18 fractional digits, and
    the 18-place column holds it without rounding: read back from the
    column it compares equal to the amount accepted.  NaN and the
    infinities, given as a [Decimal] or produced by the conversion, are
    not answered with a validation error: the call fails with
    [TypeError]. *)
Theorem X14_accepted_amount_fits_column (value : AmountArgument) :
  (∀ d, validate_amount value = Ok d →
     (∃ v : AmountValue, value = v) ∧
     Decimal.fractional_digits d ≤ 18 ∧
     Decimal.numerically_equal (Decimal.of_units (Decimal.to_units d)) d) ∧
  (∀ s, value = SpecialValue s ∨ value = OtherSpecialValue s →
     validate_amount value = Raise TypeError).
Proof.
  split.
  - intros d Hv. destruct value as [v| |]; [| done | done].
    destruct (validate_amount_cases v) as [(d' & Hd' & He)|[Hr|Hr]];
      [| congruence | congruence].
    assert (d' = d) as -> by congruence.
    split; [by exists v |].
    split; [unfold Decimal.fractional_digits; lia | by apply stored_exactly].
  - by intros s [-> | ->].
Qed.

Lemma X14_witness :
  ((∃ v : AmountValue, FieldValue (OtherValue (Some amount_precise)) = v) ∧
   Decimal.fractional_digits amount_precise ≤ 18 ∧
   Decimal.numerically_equal
     (Decimal.of_units (Decimal.to_units amount_precise)) amount_precise) ∧
  validate_amount (SpecialValue Decimal.NaN) = Raise TypeError.
Proof.
  split.
  - apply (proj1 (X14_accepted_amount_fits_column (OtherValue (Some amount_precise)))).
    reflexivity.
  - apply (proj2 (X14_accepted_amount_fits_column (SpecialValue Decimal.NaN)) Decimal.NaN).
    left. reflexivity.
Defined.

(** ** Missing references *)

(** X15: a create request that names no stored wallet is rejected by
    the relationship field, under the name wallet and with nothing
    changed, before the model validation and its own wallet check are
    reached; a delete request that names no stored transaction is
    answered 404 and changes nothing. *)
Theorem X15_missing_references s :
  (∀ data, wallets s !! data_wallet data = None →
     ∃ errors,
       TransactionViewSet.create data s
       = (Raise (SerializerValidationError (MessageDict errors)), s) ∧
       ("wallet", RelatedDoesNotExist) ∈ errors ∧
       ("wallet", WalletMissing) ∉ errors) ∧
  (∀ k, transactions s !! k = None →
     TransactionViewSet.destroy k s = (Raise Http404, s)).
Proof.
  split.
  - intros data Hw. exists (create_field_errors data s).
    destruct (create_cases data s) as [[-> _]|(d & w & _ & Hw' & _)]; [| congruence].
    split; [done |].
    unfold create_field_errors, wallet_field_errors, txid_field_errors,
      amount_field_errors. rewrite Hw. split.
    + apply elem_of_cons. by left.
    + destruct (txid_taken _ _ _);
        destruct (validate_amount_cases (data_amount data)) as [(d & -> & _)|[-> | ->]];
        simpl; intros H;
        repeat (apply elem_of_cons in H as [[=]|H]); by apply elem_of_nil in H.
  - intros k Hk. by rewrite destroy_eq, Hk.
Qed.

Lemma X15_witness :
  ∃ errors,
    TransactionViewSet.create
      (mkTransactionData 1000 "tx-for-ghost-wallet" (DecimalValue fifty)) one_deposit
    = (Raise (SerializerValidationError (MessageDict errors)), one_deposit) ∧
    ("wallet", RelatedDoesNotExist) ∈ errors ∧
    ("wallet", WalletMissing) ∉ errors.
Proof.
  apply (proj1 (X15_missing_references one_deposit)
           (mkTransactionData 1000 "tx-for-ghost-wallet" (DecimalValue fifty))).
  reflexivity.
Defined.

(** ** [Wallet.clean] *)

(** X16: [Wallet.clean] passes exactly the wallets whose balance is not
    negative and files its error under the name balance; every wallet of
    a store the API has produced passes it. *)
Theorem X16_wallet_clean self s :
  (Wallet_clean self s = (Ok tt, s) ↔ 0 ≤ balance (row self)) ∧
  (Wallet_clean self s
   = (Raise (DjangoValidationError (MessageDict [("balance", WalletNegative)])), s)
   ↔ balance (row self) < 0) ∧
  (reachable s →
   ∀ k w, wallets s !! k = Some w → Wallet_clean (mkInstance (Some k) w) s = (Ok tt, s)).
Proof.
  assert (∀ i : Instance Wallet, 0 ≤ balance (row i) → Wallet_clean i s = (Ok tt, s)) as Hok.
  { intros i Hb. unfold Wallet_clean. unfold_db.
    destruct (balance (row i) <? 0) eqn:Hn; [lia | done]. }
  split; [| split].
  - split; [| apply Hok]. unfold Wallet_clean. unfold_db.
    destruct (balance (row self) <? 0) eqn:Hn; [done | lia].
  - unfold Wallet_clean. unfold_db.
    destruct (balance (row self) <? 0) eqn:Hn; split; try done; lia.
  - intros Hr k w Hk. apply Hok. simpl.
    by eapply (proj1 (proj2 (reachable_invariants s Hr))).
Qed.

Lemma X16_witness :
  Wallet_clean (mkInstance (Some 1) {| label := "Test Wallet"; balance := whole 50 |})
    one_deposit
  = (Ok tt, one_deposit).
Proof.
  refine (proj2 (proj2 (X16_wallet_clean
            (mkInstance None {| label := "Test Wallet"; balance := 0 |}) one_deposit))
            _ 1 {| label := "Test Wallet"; balance := whole 50 |} eq_refl).
  assert (one_deposit
          = (dispatch (PostTransaction
                         (mkTransactionData 1 "deposit-tx-1" (DecimalValue fifty)))
               (dispatch (PostWallet "Test Wallet") empty_store).2).2) as Heq.
  { vm_compute. reflexivity. }
  rewrite Heq. apply reachable_dispatch, reachable_dispatch, reachable_empty.
Defined.

(** ** Other edits through the serializer *)

Lemma is_valid_update_wallet instance w2 s :
  (is_valid_update instance (mkTransactionPatch (Some w2) None None) s).1 =
  match wallets s !! w2 with
  | None => Raise (SerializerValidationError (MessageDict [("wallet", RelatedDoesNotExist)]))
  | Some _ => Ok (mkValidatedPatch (Some w2) None None)
  end.
Proof.
  unfold is_valid_update, run_optional_field, run_field, wallet_field,
    Wallet_objects_get.
  unfold_db. simpl. by destruct (wallets s !! w2).
Qed.

(** X17: re-assigning a stored transaction (non-zero key, txids
    distinct) to another wallet through the serializer is rejected under
    the name wallet, with nothing changed, when that wallet does not
    exist; when it exists with a balance that is not negative the edit
    commits: the row then references the new wallet, and neither wallet's
    row is changed. *)
Theorem X17_wallet_edit s k t w2 :
  k ≠ 0 →
  transactions s !! k = Some t →
  txids_distinct s →
  (wallets s !! w2 = None →
   update_transaction k (mkTransactionPatch (Some w2) None None) s
   = (Raise (SerializerValidationError (MessageDict [("wallet", RelatedDoesNotExist)])), s)) ∧
  (∀ wr, wallets s !! w2 = Some wr → 0 ≤ balance wr →
   update_transaction k (mkTransactionPatch (Some w2) None None) s
   = (Ok (mkInstance (Some k) {| wallet := w2; txid := txid t; amount := amount t |}),
      {| wallets := wallets s;
         transactions :=
           <[k := {| wallet := w2; txid := txid t; amount := amount t |}]>
             (transactions s) |})).
Proof.
  intros Hk Ht Hdist.
  rewrite update_transaction_eq, Ht, is_valid_update_wallet. split.
  - by intros ->.
  - intros wr Hw Hb. rewrite Hw. cbn zeta. unfold patched. simpl.
    assert (clean_errors (mkInstance (Some k)
              {| wallet := w2; txid := txid t; amount := amount t |}) s = []) as ->.
    { apply clean_errors_nil. unfold clean_outcome. simpl.
      rewrite Hw, (proj2 (Z.eqb_neq k 0) Hk), Ht.
      rewrite edit_prospective_balance_same.
      destruct (_ <? 0) eqn:Hn; [lia | done]. }
    assert (unique_errors (mkInstance (Some k)
              {| wallet := w2; txid := txid t; amount := amount t |}) s = []) as ->;
      [| done].
    unfold unique_errors. simpl.
    destruct (txid_taken (txid t) (Some k) (transactions s)) eqn:Htk; [| done].
    apply txid_taken_true in Htk as (k' & t' & Hk' & Heq & Hne).
    exfalso. apply Hne. f_equal. by eapply Hdist.
Qed.

Lemma X17_witness :
  update_transaction 1 (mkTransactionPatch (Some 1000) None None) one_deposit
  = (Raise (SerializerValidationError (MessageDict [("wallet", RelatedDoesNotExist)])),
     one_deposit).
Proof.
  refine (proj1 (X17_wallet_edit one_deposit 1
            {| wallet := 1; txid := "deposit-tx-1"; amount := whole 50 |} 1000 _ _ _) _).
  - discriminate.
  - reflexivity.
  - intros k1 k2 t1 t2. unfold one_deposit. cbn [transactions].
    intros [<- _]%lookup_singleton_Some [<- _]%lookup_singleton_Some _. reflexivity.
  - reflexivity.
Defined.

(** X18: the ways an amount edit through the serializer fails, each
    leaving the store as it was: no stored transaction under the key is
    answered 404; a new amount with more than 18 fractional digits is
    rejected under the name amount by the precision guard; and for a
    stored transaction (non-zero key) whose wallet exists, a new amount
    for which [Transaction.clean] computes a negative prospective
    balance is rejected with the negative-balance reason under the name
    amount.  The prospective balance computed is balance + (new - old)
    itself wherever the difference and the sum have at most 28
    digits. *)
Theorem X18_amount_edit_failures s k :
  (∀ v, transactions s !! k = None →
        update_transaction_amount k v s = (Raise Http404, s)) ∧
  (∀ t d, transactions s !! k = Some t →
          18 < Decimal.fractional_digits d →
          update_transaction_amount k (DecimalValue d) s
          = (Raise (SerializerValidationError
                      (MessageDict [("amount", PrecisionExceeded)])), s)) ∧
  (∀ t w d, k ≠ 0 →
            transactions s !! k = Some t →
            wallets s !! wallet t = Some w →
            Decimal.fractional_digits d ≤ 18 →
            edit_prospective_balance (balance w) (Decimal.to_units d) (amount t) < 0 →
            ∃ errors,
              update_transaction_amount k (DecimalValue d) s
              = (Raise (DjangoValidationError (MessageDict errors)), s) ∧
              ("amount", NegativeBalance) ∈ errors) ∧
  (∀ t w d, Z.abs (Decimal.to_units d - amount t) < 10 ^ 28 →
            Z.abs (balance w + (Decimal.to_units d - amount t)) < 10 ^ 28 →
            edit_prospective_balance (balance w) (Decimal.to_units d) (amount t)
            = balance w + (Decimal.to_units d - amount t)).
Proof.
  unfold Decimal.fractional_digits. repeat split.
  - intros v Hk. by rewrite update_transaction_amount_eq, Hk.
  - intros t d Ht Hd. rewrite update_transaction_amount_eq, Ht.
    unfold amount_field_errors. rewrite validate_amount_decimal.
    destruct (Decimal.exponent d <? -18) eqn:He; [done | lia].
  - intros t w d Hk Ht Hw Hd Hb.
    rewrite update_transaction_amount_eq, Ht, validate_amount_decimal.
    destruct (Decimal.exponent d <? -18) eqn:He; [lia |].
    assert (clean_errors (edited k t d) s = [("amount", NegativeBalance)]) as ->.
    { unfold clean_errors, clean_outcome. simpl.
      rewrite Hw, (proj2 (Z.eqb_neq k 0) Hk), Ht.
      by rewrite (proj2 (Z.ltb_lt _ _) Hb). }
    simpl. eexists. split; [done |]. apply elem_of_cons. by left.
  - intros t w d Hd Hs. by apply edit_prospective_balance_exact.
Qed.

Lemma X18_witness :
  ∃ errors,
    update_transaction_amount 1 (DecimalValue minus_sixty) one_deposit
    = (Raise (DjangoValidationError (MessageDict errors)), one_deposit) ∧
    ("amount", NegativeBalance) ∈ errors.
Proof.
  refine (proj1 (proj2 (proj2 (X18_amount_edit_failures one_deposit 1)))
            {| wallet := 1; txid := "deposit-tx-1"; amount := whole 50 |}
            {| label := "Test Wallet"; balance := whole 50 |} minus_sixty _ _ _ _ _).
  - discriminate.
  - reflexivity.
  - reflexivity.
  - vm_compute. discriminate.
  - vm_compute. reflexivity.
Defined.
